(** * stripe-connect-invoices: the ledger classification pass and its tools

    A shallow embedding of the two command-line entry points of the
    repository: the reporting script (credential discovery, the listing
    request, the classification loop, the exit handler) and the extended
    tool [bin/stripe-connect-tools.js] (its interruption guard and exit
    handler).

    Conventions of the embedding:
    - JavaScript numbers that hold amounts and epoch seconds are integers
      of [Z]: the ledger reports minor currency units, far below 2^53,
      where the arithmetic of the source is exact;
    - the quotient [valueOf() / 1000] of the listing request is a rational
      of [Q];
    - strings are byte strings; [toLowerCase] is modelled on ASCII names;
    - a JavaScript object used as a dictionary is a [gmap] over its own
      properties, inherited members of [Object.prototype] are listed
      where a lookup can reach them;
    - a [throw] is the [Throw] constructor of [result]; [process.exit] is
      the [Exited] constructor of [completion]. *)

From Stdlib Require Import ZArith QArith String Ascii List Bool Lia.
From stdpp Require Import gmap strings list fin_maps.

Import ListNotations.
Local Open Scope Z_scope.
Local Open Scope string_scope.

(** ** JavaScript values the code only copies around *)

Inductive JsValue : Type :=
| JsUndefined
| JsNull
| JsString (s : string)
| JsNumber (n : Z)
| JsObject (json : string).

(** [new Date(ms)]: a date is its time value in milliseconds. *)
Record Date : Type := NewDate { valueOf : Z }.

(** Thrown values: every error of the model is an [Error] object with a
    string [message]. *)
Inductive JsError : Type :=
| TypeError (msg : string)
| Error (msg : string).

Definition message (e : JsError) : string :=
  match e with
  | TypeError m => m
  | Error m => m
  end.

Inductive result (A : Type) : Type :=
| Ok (a : A)
| Throw (e : JsError).

Arguments Ok {A} a.
Arguments Throw {A} e.

#[global] Instance result_ret : MRet result := fun A a => Ok a.

#[global] Instance result_bind : MBind result := fun A B k r =>
  match r with
  | Ok a => k a
  | Throw e => Throw e
  end.

#[global] Instance result_fmap : FMap result := fun A B f r =>
  match r with
  | Ok a => Ok (f a)
  | Throw e => Throw e
  end.

(** [Array.prototype.forEach] with a callback that mutates the state and
    may throw: the first throw leaves the loop. *)
Fixpoint forEach {A S : Type} (callback : A -> S -> result S)
    (arr : list A) (s : S) : result S :=
  match arr with
  | [] => Ok s
  | x :: rest => s' ← callback x s; forEach callback rest s'
  end.

(** [Array.prototype.includes] on strings. *)
Definition includes (arr : list string) (x : string) : bool :=
  existsb (String.eqb x) arr.

Arguments includes : simpl never.

(** ** The ledger records *)

Record FeeDetail : Type := {
  fee_type : string;
  fee_amount : Z;
  fee_currency : string;
  fee_description : JsValue
}.

(** The expanded [source] of a ledger transaction, with the fields the
    code reads. *)
Record Source : Type := {
  source_id : string;
  source_available_on : Z;
  source_metadata : JsValue;
  source_payment_method_details : JsValue;
  source_billing_details : JsValue
}.

Record RawTransaction : Type := {
  tx_id : string;
  tx_type : string;
  tx_status : string;
  tx_amount : Z;
  tx_net : Z;
  tx_fee : Z;
  tx_currency : string;
  tx_created : Z;
  tx_available_on : Z;
  tx_source : Source;
  tx_fee_details : list FeeDetail
}.

(** ** The classified records *)

Record Payout : Type := {
  payout_transaction_id : string;
  payout_id : string;
  payout_amount : Z;
  payout_fee : Z;
  payout_currency : string;
  payout_status : string;
  payout_created : Date;
  payout_available_on : Date;
  payout_arrival_date : Date
}.

Record Charge : Type := {
  charge_transaction_id : string;
  charge_id : string;
  charge_amount : Z;
  charge_fee : Z;
  charge_currency : string;
  charge_created : Date;
  charge_available_on : Date;
  charge_metadata : JsValue;
  charge_payment_method : JsValue;
  charge_billing_details : JsValue
}.

Record FeeLineItem : Type := {
  item_transaction_id : string;
  item_charge_id : string;
  item_amount : Z;
  item_currency : string;
  item_description : JsValue;
  item_created : Date;
  item_available_on : Date
}.

Record Totals : Type := {
  pending_transactions : Z;
  payouts_gross : Z;
  payouts_net : Z;
  payouts_fees : Z;
  stripe_fees : Z;
  charge_gross : Z;
  charge_net : Z;
  charge_fees : Z;
  charge_stripe_fees : Z;
  charge_application_fees : Z;
  charge_tax_fees : Z
}.

(** What the loop writes to the terminal. *)
Inductive LogLine : Type :=
| ConsoleError (transaction : RawTransaction)
| SpinnerWarn (text : string).

(** The variables of [main] that the loop mutates, and the terminal. *)
Record State : Type := {
  taxesAndFees : gmap string (list FeeLineItem);
  payouts : list Payout;
  transactions : list RawTransaction;
  charges : list Charge;
  totals : Totals;
  console : list LogLine
}.

Definition set_taxesAndFees (f : gmap string (list FeeLineItem) -> gmap string (list FeeLineItem))
    (st : State) : State :=
  {| taxesAndFees := f (taxesAndFees st); payouts := payouts st;
     transactions := transactions st; charges := charges st;
     totals := totals st; console := console st |}.

Definition set_payouts (f : list Payout -> list Payout) (st : State) : State :=
  {| taxesAndFees := taxesAndFees st; payouts := f (payouts st);
     transactions := transactions st; charges := charges st;
     totals := totals st; console := console st |}.

Definition set_transactions (f : list RawTransaction -> list RawTransaction)
    (st : State) : State :=
  {| taxesAndFees := taxesAndFees st; payouts := payouts st;
     transactions := f (transactions st); charges := charges st;
     totals := totals st; console := console st |}.

Definition set_charges (f : list Charge -> list Charge) (st : State) : State :=
  {| taxesAndFees := taxesAndFees st; payouts := payouts st;
     transactions := transactions st; charges := f (charges st);
     totals := totals st; console := console st |}.

Definition set_totals (f : Totals -> Totals) (st : State) : State :=
  {| taxesAndFees := taxesAndFees st; payouts := payouts st;
     transactions := transactions st; charges := charges st;
     totals := f (totals st); console := console st |}.

Definition set_console (f : list LogLine -> list LogLine) (st : State) : State :=
  {| taxesAndFees := taxesAndFees st; payouts := payouts st;
     transactions := transactions st; charges := charges st;
     totals := totals st; console := f (console st) |}.

(** [arr.push(x)] *)
Definition push {A : Type} (x : A) (arr : list A) : list A := arr ++ [x].

(** ** Updates of the totals: [totals.field += delta] *)

Definition add_pending_transactions (d : Z) (t : Totals) : Totals :=
  {| pending_transactions := pending_transactions t + d;
     payouts_gross := payouts_gross t; payouts_net := payouts_net t;
     payouts_fees := payouts_fees t; stripe_fees := stripe_fees t;
     charge_gross := charge_gross t; charge_net := charge_net t;
     charge_fees := charge_fees t; charge_stripe_fees := charge_stripe_fees t;
     charge_application_fees := charge_application_fees t;
     charge_tax_fees := charge_tax_fees t |}.

Definition add_payouts_gross (d : Z) (t : Totals) : Totals :=
  {| pending_transactions := pending_transactions t;
     payouts_gross := payouts_gross t + d; payouts_net := payouts_net t;
     payouts_fees := payouts_fees t; stripe_fees := stripe_fees t;
     charge_gross := charge_gross t; charge_net := charge_net t;
     charge_fees := charge_fees t; charge_stripe_fees := charge_stripe_fees t;
     charge_application_fees := charge_application_fees t;
     charge_tax_fees := charge_tax_fees t |}.

Definition add_payouts_net (d : Z) (t : Totals) : Totals :=
  {| pending_transactions := pending_transactions t;
     payouts_gross := payouts_gross t; payouts_net := payouts_net t + d;
     payouts_fees := payouts_fees t; stripe_fees := stripe_fees t;
     charge_gross := charge_gross t; charge_net := charge_net t;
     charge_fees := charge_fees t; charge_stripe_fees := charge_stripe_fees t;
     charge_application_fees := charge_application_fees t;
     charge_tax_fees := charge_tax_fees t |}.

Definition add_payouts_fees (d : Z) (t : Totals) : Totals :=
  {| pending_transactions := pending_transactions t;
     payouts_gross := payouts_gross t; payouts_net := payouts_net t;
     payouts_fees := payouts_fees t + d; stripe_fees := stripe_fees t;
     charge_gross := charge_gross t; charge_net := charge_net t;
     charge_fees := charge_fees t; charge_stripe_fees := charge_stripe_fees t;
     charge_application_fees := charge_application_fees t;
     charge_tax_fees := charge_tax_fees t |}.

Definition add_stripe_fees (d : Z) (t : Totals) : Totals :=
  {| pending_transactions := pending_transactions t;
     payouts_gross := payouts_gross t; payouts_net := payouts_net t;
     payouts_fees := payouts_fees t; stripe_fees := stripe_fees t + d;
     charge_gross := charge_gross t; charge_net := charge_net t;
     charge_fees := charge_fees t; charge_stripe_fees := charge_stripe_fees t;
     charge_application_fees := charge_application_fees t;
     charge_tax_fees := charge_tax_fees t |}.

Definition add_charge_gross (d : Z) (t : Totals) : Totals :=
  {| pending_transactions := pending_transactions t;
     payouts_gross := payouts_gross t; payouts_net := payouts_net t;
     payouts_fees := payouts_fees t; stripe_fees := stripe_fees t;
     charge_gross := charge_gross t + d; charge_net := charge_net t;
     charge_fees := charge_fees t; charge_stripe_fees := charge_stripe_fees t;
     charge_application_fees := charge_application_fees t;
     charge_tax_fees := charge_tax_fees t |}.

Definition add_charge_net (d : Z) (t : Totals) : Totals :=
  {| pending_transactions := pending_transactions t;
     payouts_gross := payouts_gross t; payouts_net := payouts_net t;
     payouts_fees := payouts_fees t; stripe_fees := stripe_fees t;
     charge_gross := charge_gross t; charge_net := charge_net t + d;
     charge_fees := charge_fees t; charge_stripe_fees := charge_stripe_fees t;
     charge_application_fees := charge_application_fees t;
     charge_tax_fees := charge_tax_fees t |}.

Definition add_charge_fees (d : Z) (t : Totals) : Totals :=
  {| pending_transactions := pending_transactions t;
     payouts_gross := payouts_gross t; payouts_net := payouts_net t;
     payouts_fees := payouts_fees t; stripe_fees := stripe_fees t;
     charge_gross := charge_gross t; charge_net := charge_net t;
     charge_fees := charge_fees t + d; charge_stripe_fees := charge_stripe_fees t;
     charge_application_fees := charge_application_fees t;
     charge_tax_fees := charge_tax_fees t |}.

Definition add_charge_stripe_fees (d : Z) (t : Totals) : Totals :=
  {| pending_transactions := pending_transactions t;
     payouts_gross := payouts_gross t; payouts_net := payouts_net t;
     payouts_fees := payouts_fees t; stripe_fees := stripe_fees t;
     charge_gross := charge_gross t; charge_net := charge_net t;
     charge_fees := charge_fees t; charge_stripe_fees := charge_stripe_fees t + d;
     charge_application_fees := charge_application_fees t;
     charge_tax_fees := charge_tax_fees t |}.

Definition add_charge_application_fees (d : Z) (t : Totals) : Totals :=
  {| pending_transactions := pending_transactions t;
     payouts_gross := payouts_gross t; payouts_net := payouts_net t;
     payouts_fees := payouts_fees t; stripe_fees := stripe_fees t;
     charge_gross := charge_gross t; charge_net := charge_net t;
     charge_fees := charge_fees t; charge_stripe_fees := charge_stripe_fees t;
     charge_application_fees := charge_application_fees t + d;
     charge_tax_fees := charge_tax_fees t |}.

Definition add_charge_tax_fees (d : Z) (t : Totals) : Totals :=
  {| pending_transactions := pending_transactions t;
     payouts_gross := payouts_gross t; payouts_net := payouts_net t;
     payouts_fees := payouts_fees t; stripe_fees := stripe_fees t;
     charge_gross := charge_gross t; charge_net := charge_net t;
     charge_fees := charge_fees t; charge_stripe_fees := charge_stripe_fees t;
     charge_application_fees := charge_application_fees t;
     charge_tax_fees := charge_tax_fees t + d |}.

(** ** The classification loop of [main] *)

Definition knownTransactionTypes : list string :=
  ["charge"; "payout"; "stripe_fee"].

(** The members every object literal inherits from [Object.prototype]:
    a lookup of one of these names on [taxesAndFees] finds a value that
    is not an array. *)
Definition object_prototype_members : list string :=
  ["constructor"; "__defineGetter__"; "__defineSetter__"; "hasOwnProperty";
   "__lookupGetter__"; "__lookupSetter__"; "isPrototypeOf";
   "propertyIsEnumerable"; "toString"; "valueOf"; "__proto__";
   "toLocaleString"].

(** [totals.charge_*_fees += fee.amount], the [if]/[else if]/[else] of the
    [forEach] callback. *)
Definition add_fee_total (fee : FeeDetail) (t : Totals) : Totals :=
  if String.eqb (fee_type fee) "stripe_fee" then
    add_charge_stripe_fees (fee_amount fee) t
  else if String.eqb (fee_type fee) "application_fee" then
    add_charge_application_fees (fee_amount fee) t
  else
    add_charge_tax_fees (fee_amount fee) t.

Definition fee_line_item (transaction : RawTransaction) (fee : FeeDetail)
    : FeeLineItem :=
  {| item_transaction_id := tx_id transaction;
     item_charge_id := source_id (tx_source transaction);
     item_amount := fee_amount fee;
     item_currency := fee_currency fee;
     item_description := fee_description fee;
     item_created := NewDate (tx_created transaction * 1000);
     item_available_on := NewDate (tx_available_on transaction * 1000) |}.

(** [taxesAndFees[key].push(item)]: the array is looked up under the
    dynamic key; a key that is no property of the object gives
    [undefined], and an inherited member is no array: both throw. *)
Definition push_fee (key : string) (item : FeeLineItem) (st : State)
    : result State :=
  match taxesAndFees st !! key with
  | Some arr => Ok (set_taxesAndFees (insert key (push item arr)) st)
  | None =>
      if includes object_prototype_members key then
        Throw (TypeError "taxesAndFees[fee.type].push is not a function")
      else
        Throw (TypeError "Cannot read properties of undefined (reading 'push')")
  end.

(** The callback of [transaction.fee_details.forEach]. *)
Definition fee_callback (transaction : RawTransaction) (fee : FeeDetail)
    (st : State) : result State :=
  push_fee (fee_type fee) (fee_line_item transaction fee)
    (set_totals (add_fee_total fee) st).

Definition payout_record (transaction : RawTransaction) : Payout :=
  {| payout_transaction_id := tx_id transaction;
     payout_id := source_id (tx_source transaction);
     payout_amount := tx_amount transaction;
     payout_fee := tx_fee transaction;
     payout_currency := tx_currency transaction;
     payout_status := tx_status transaction;
     payout_created := NewDate (tx_created transaction * 1000);
     payout_available_on := NewDate (tx_available_on transaction * 1000);
     payout_arrival_date :=
       NewDate (source_available_on (tx_source transaction) * 1000) |}.

Definition charge_record (transaction : RawTransaction) : Charge :=
  {| charge_transaction_id := tx_id transaction;
     charge_id := source_id (tx_source transaction);
     charge_amount := tx_amount transaction;
     charge_fee := tx_fee transaction;
     charge_currency := tx_currency transaction;
     charge_created := NewDate (tx_created transaction * 1000);
     charge_available_on := NewDate (tx_available_on transaction * 1000);
     charge_metadata := source_metadata (tx_source transaction);
     charge_payment_method :=
       source_payment_method_details (tx_source transaction);
     charge_billing_details := source_billing_details (tx_source transaction) |}.

(** The three [if] blocks under "Calculate data". *)
Definition on_stripe_fee (transaction : RawTransaction) (st : State) : State :=
  if String.eqb (tx_type transaction) "stripe_fee" then
    set_totals (add_stripe_fees (tx_amount transaction * -1)) st
  else st.

Definition on_payout (transaction : RawTransaction) (st : State) : State :=
  if String.eqb (tx_type transaction) "payout" then
    set_payouts (push (payout_record transaction))
      (set_totals (fun t =>
         add_payouts_fees (tx_fee transaction)
           (add_payouts_net (tx_net transaction * -1)
              (add_payouts_gross (tx_amount transaction * -1) t))) st)
  else st.

Definition on_charge (transaction : RawTransaction) (st : State)
    : result State :=
  if String.eqb (tx_type transaction) "charge" then
    st1 ← forEach (fee_callback transaction) (tx_fee_details transaction) st;
    Ok (set_totals (fun t =>
          add_charge_net (tx_net transaction)
            (add_charge_gross (tx_amount transaction)
               (add_charge_fees (tx_fee transaction) t)))
          (set_charges (push (charge_record transaction)) st1))
  else Ok st.

(** The body of the [for await] loop, for one transaction. *)
Definition loop_body (transaction : RawTransaction) (st : State)
    : result State :=
  if String.eqb (tx_status transaction) "pending" then
    Ok (set_totals (add_pending_transactions 1) st)
  else if negb (String.eqb (tx_status transaction) "available") then
    Ok (set_console (push (ConsoleError transaction)) st)
  else if negb (includes knownTransactionTypes (tx_type transaction)) then
    Ok (set_console
          (push (SpinnerWarn ("Unknown transaction type: "
                              +:+ tx_type transaction
                              +:+ ", id: " +:+ tx_id transaction))) st)
  else
    st1 ← on_charge transaction (on_payout transaction
                                   (on_stripe_fee transaction st));
    Ok (set_transactions (push transaction) st1).

(** The whole loop over the listed transactions. *)
Definition for_await (listed : list RawTransaction) (st : State)
    : result State :=
  forEach loop_body listed st.

(** The declarations of [main] before the loop: fresh collections and
    zeroed totals, whatever an earlier run left; the terminal stays. *)
Definition fresh_totals : Totals :=
  {| pending_transactions := 0; payouts_gross := 0; payouts_net := 0;
     payouts_fees := 0; stripe_fees := 0; charge_gross := 0; charge_net := 0;
     charge_fees := 0; charge_stripe_fees := 0; charge_application_fees := 0;
     charge_tax_fees := 0 |}.

Definition fresh_taxesAndFees : gmap string (list FeeLineItem) :=
  <["application_fee" := []]> (<["stripe_fee" := []]> (<["tax" := []]> ∅)).

Definition declare_locals (st : State) : State :=
  {| taxesAndFees := fresh_taxesAndFees; payouts := []; transactions := [];
     charges := []; totals := fresh_totals; console := console st |}.

(** The classification pass: the declarations, then the loop. *)
Definition classification_pass (listed : list RawTransaction) (st : State)
    : result State :=
  for_await listed (declare_locals st).

(** ** The listing request *)

Record Period : Type := {
  period_start : Date;
  period_end : Date
}.

(** The argument of [stripeClient.balanceTransactions.list]. *)
Record ListParams : Type := {
  created_gte : Q;
  created_lte : Q;
  expand : list string
}.

Definition list_params (period : Period) : ListParams :=
  {| created_gte := (inject_Z (valueOf (period_start period)) / inject_Z 1000)%Q;
     created_lte := (inject_Z (valueOf (period_end period)) / inject_Z 1000)%Q;
     expand := ["data.source"] |}.

(** The upstream filter [created: {gte, lte}]: both bounds are inclusive,
    on the [created] epoch seconds of a ledger entry. *)
Definition created_matches (params : ListParams) (created : Z) : bool :=
  Qle_bool (created_gte params) (inject_Z created)
  && Qle_bool (inject_Z created) (created_lte params).

(** What the auto-paginating iterator yields from an account's ledger. *)
Definition balanceTransactions_list (ledger : list RawTransaction)
    (params : ListParams) : list RawTransaction :=
  List.filter (fun transaction => created_matches params (tx_created transaction))
    ledger.

(** ** Credential discovery: [getStripeClients] *)

(** [new Stripe(secret, {apiVersion})] *)
Record StripeClient : Type := NewStripe {
  client_secret : string;
  client_apiVersion : string
}.

Definition startsWith (s searchString : string) : bool :=
  String.prefix searchString s.

(** [s.slice(n)] for [n >= 0]. *)
Fixpoint slice (n : nat) (s : string) : string :=
  match n, s with
  | O, _ => s
  | S n', String _ rest => slice n' rest
  | S _, EmptyString => EmptyString
  end.

Definition lower_ascii (c : ascii) : ascii :=
  let n := nat_of_ascii c in
  if ((65 <=? n) && (n <=? 90))%nat then ascii_of_nat (n + 32) else c.

Fixpoint toLowerCase (s : string) : string :=
  match s with
  | EmptyString => EmptyString
  | String c rest => String (lower_ascii c) (toLowerCase rest)
  end.

(** The object literal [clients]: its own properties, and its prototype
    when an assignment to [__proto__] replaced it. *)
Record ClientsObject : Type := {
  own : gmap string StripeClient;
  proto : option StripeClient
}.

Definition empty_object : ClientsObject := {| own := ∅; proto := None |}.

(** [clients[key] = client]: the name [__proto__] reaches the setter of
    [Object.prototype] and creates no property. *)
Definition set_property (key : string) (client : StripeClient)
    (clients : ClientsObject) : ClientsObject :=
  if String.eqb key "__proto__" then
    {| own := own clients; proto := Some client |}
  else
    {| own := <[key := client]> (own clients); proto := proto clients |}.

(** A snapshot of [process.env], in enumeration order. *)
Definition Environment : Type := list (string * string).

(** [process.env[key]] *)
Fixpoint env_get (env : Environment) (key : string) : option string :=
  match env with
  | [] => None
  | (k, v) :: rest => if String.eqb k key then Some v else env_get rest key
  end.

(** [!secret] for a value of [process.env]. *)
Definition falsy (v : option string) : bool :=
  match v with
  | None => true
  | Some s => String.eqb s EmptyString
  end.

(** The callback of [Object.keys(process.env).forEach]. *)
Definition env_callback (env : Environment) (clients : ClientsObject)
    (key : string) : ClientsObject :=
  if startsWith key "STRIPE_TOKEN_" then
    let account := toLowerCase (slice 13 key) in
    match env_get env key with
    | Some secret =>
        if falsy (Some secret) then clients
        else set_property account (NewStripe secret "2023-08-16") clients
    | None => clients
    end
  else clients.

(** [getStripeClients()]: the object, and its own keys. The order of the
    keys is not modelled; [main] sorts them before use. *)
Definition getStripeClients (env : Environment)
    : ClientsObject * list string :=
  let clients := fold_left (env_callback env) (map fst env) empty_object in
  (clients, (map_to_list (own clients)).*1).

(** ** The two entry points *)

(** The answers of [prompts]: a field is absent when its question was
    not answered. *)
Record Responses : Type := {
  account : option string;
  period : option Period;
  action : option string
}.

(** The promise of [prompts([...])]. *)
Inductive PromptOutcome : Type :=
| PromptResolved (responses : Responses)
| PromptRejected (e : JsError).

(** How the promise of [main()] ends. *)
Inductive completion : Type :=
| Resolved
| Rejected (e : JsError)
| Exited (code : Z).

(** The test of the [catch] handler on the rejection. *)
Definition force_closed (error : JsError) : bool :=
  startsWith (message error) "User force closed the prompt with".

(** [main().then(...).catch(...)], the same in both files. *)
Definition exit_status (c : completion) : Z :=
  match c with
  | Exited code => code
  | Resolved => 0
  | Rejected error => if force_closed error then 0 else 1
  end.

(** A property name made from a value: [obj[undefined]] reads the
    property called "undefined". *)
Definition property_key (v : option string) : string :=
  match v with
  | Some s => s
  | None => "undefined"
  end.

(** [stripeClients[responses.account]], for the names a select prompt can
    answer (one of the own keys) and for a missing answer. *)
Definition get_client (clients : ClientsObject) (answer : option string)
    : option StripeClient :=
  own clients !! property_key answer.

Section EntryPoints.

(** [formatPeriod] of [src/date-fns.js], applied to [responses.period]. *)
Variable formatPeriod : option Period -> result string.

(** The ledger behind a client, or the transport failure of the
    upstream call. *)
Variable ledger : StripeClient -> result (list RawTransaction).

(** [main] of the reporting script. *)
Definition main (env : Environment) (prompted : PromptOutcome) (st : State)
    : completion :=
  let '(stripeClients, stripeAccounts) := getStripeClients env in
  if (length stripeAccounts <? 1)%nat then Exited 1
  else
    match prompted with
    | PromptRejected e => Rejected e
    | PromptResolved responses =>
        match formatPeriod (period responses) with
        | Throw e => Rejected e
        | Ok _ =>
            match get_client stripeClients (account responses) with
            | None =>
                Rejected (TypeError
                  "Cannot read properties of undefined (reading 'balanceTransactions')")
            | Some stripeClient =>
                match period responses with
                | None =>
                    Rejected (TypeError
                      "Cannot read properties of undefined (reading 'start')")
                | Some selected =>
                    match ledger stripeClient with
                    | Throw e => Rejected e
                    | Ok entries =>
                        match classification_pass
                                (balanceTransactions_list entries
                                   (list_params selected)) st with
                        | Throw e => Rejected e
                        | Ok _ => Resolved
                        end
                    end
                end
            end
        end
    end.

(** [configuration.getProperties()] *)
Variable getProperties : result JsValue.

(** [op.read.parse] of the secret-store client. *)
Variable op_read_parse : string -> result string.

(** [getStripeClient] of [src/stripe.js]. *)
Variable getStripeClient : string -> StripeClient.

(** The three actions of [src/actions]. *)
Variable run_action : string -> StripeClient -> string -> Period -> JsValue
                      -> result unit.

Definition known_actions : list string :=
  ["createAndSaveReceipts"; "downloadInvoices"; "savePayoutReceipts"].

(** [main] of [bin/stripe-connect-tools.js]; [stripeTokens] is the map
    that [getStripeTokens()] returned. The guard
    [!responses.account || !responses.period || !responses.action]
    holds when an answer is absent or is the empty string. *)
Definition tools_main (stripeTokens : gmap string string)
    (prompted : PromptOutcome) : completion :=
  match getProperties with
  | Throw e => Rejected e
  | Ok config =>
      if (size stripeTokens <? 1)%nat then Exited 1
      else
        match prompted with
        | PromptRejected e => Rejected e
        | PromptResolved responses =>
            match account responses, period responses, action responses with
            | Some accountName, Some selected, Some chosen =>
                if String.eqb accountName EmptyString
                   || String.eqb chosen EmptyString then Exited 0
                else if falsy (stripeTokens !! accountName) then Exited 0
                else
                  let token := default EmptyString (stripeTokens !! accountName) in
                  match (if startsWith token "op://" then op_read_parse token
                         else Ok token) with
                  | Throw e => Rejected e
                  | Ok secret =>
                      let stripe := getStripeClient secret in
                      match formatPeriod (Some selected) with
                      | Throw e => Rejected e
                      | Ok _ =>
                          if includes known_actions chosen then
                            match run_action chosen stripe accountName
                                    selected config with
                            | Throw e => Rejected e
                            | Ok _ => Resolved
                            end
                          else
                            Rejected (Error ("Unhandled command: " +:+ chosen))
                      end
                  end
            | _, _, _ => Exited 0
            end
        end
  end.

End EntryPoints.

(** * Vocabulary of the properties *)

(** ** Concrete ledger entries and environments used by the examples *)

Definition sample_source : Source :=
  {| source_id := "src_1"; source_available_on := 1700086400;
     source_metadata := JsObject "{}"; source_payment_method_details := JsNull;
     source_billing_details := JsNull |}.

Definition sample_transaction (type status : string) (amount net fee : Z)
    (fee_details : list FeeDetail) : RawTransaction :=
  {| tx_id := "txn_1"; tx_type := type; tx_status := status;
     tx_amount := amount; tx_net := net; tx_fee := fee; tx_currency := "usd";
     tx_created := 1700000000; tx_available_on := 1700600000;
     tx_source := sample_source; tx_fee_details := fee_details |}.

Definition sample_fee (type : string) (amount : Z) : FeeDetail :=
  {| fee_type := type; fee_amount := amount; fee_currency := "usd";
     fee_description := JsString "fee" |}.

Definition blank_state : State :=
  {| taxesAndFees := ∅; payouts := []; transactions := []; charges := [];
     totals := fresh_totals; console := [] |}.

Definition sample_env : Environment :=
  [("PATH", "/usr/bin"); ("STRIPE_TOKEN_ACME", "sk_live_1");
   ("STRIPE_TOKEN_Beta", "sk_live_2"); ("STRIPE_TOKEN_EMPTY", EmptyString)].

Definition colliding_env : Environment :=
  [("STRIPE_TOKEN_A", "sk_live_1"); ("STRIPE_TOKEN_a", "sk_live_2")].

(** ** The loop *)

(** The guards of the loop, as one test: the transaction gets past the
    three [continue] statements. *)
Definition processed (transaction : RawTransaction) : bool :=
  String.eqb (tx_status transaction) "available"
  && includes knownTransactionTypes (tx_type transaction).

(** The keys of the object literal [taxesAndFees]. *)
Definition bucket_names : list string := ["tax"; "stripe_fee"; "application_fee"].

(** The loop never adds or removes a key of [taxesAndFees]. *)
Definition has_buckets (m : gmap string (list FeeLineItem)) : Prop :=
  dom m = list_to_set bucket_names.

(** Every tag of the fee details names a key of [taxesAndFees]. *)
Definition tags_bucketed (fee_details : list FeeDetail) : bool :=
  forallb (fun fee => includes bucket_names (fee_type fee)) fee_details.

(** What the callback does when the tag names a bucket. *)
Definition route_fee (transaction : RawTransaction) (st : State)
    (fee : FeeDetail) : State :=
  set_taxesAndFees
    (alter (push (fee_line_item transaction fee)) (fee_type fee))
    (set_totals (add_fee_total fee) st).

(** The fee details that carry a given tag, in their order. *)
Definition tagged (key : string) (fee_details : list FeeDetail) : list FeeDetail :=
  List.filter (fun fee => String.eqb (fee_type fee) key) fee_details.

Definition sum_amounts (fee_details : list FeeDetail) : Z :=
  fold_right (fun fee acc => fee_amount fee + acc) 0 fee_details.

(** The share of each branch of the [if]/[else if]/[else]. *)
Definition stripe_share (fee_details : list FeeDetail) : Z :=
  sum_amounts (tagged "stripe_fee" fee_details).

Definition application_share (fee_details : list FeeDetail) : Z :=
  sum_amounts (tagged "application_fee" fee_details).

Definition tax_share (fee_details : list FeeDetail) : Z :=
  sum_amounts
    (List.filter (fun fee => negb (String.eqb (fee_type fee) "stripe_fee")
                             && negb (String.eqb (fee_type fee) "application_fee"))
       fee_details).

(** The loop body throws on exactly these transactions. *)
Definition aborts (transaction : RawTransaction) : bool :=
  processed transaction
  && String.eqb (tx_type transaction) "charge"
  && negb (tags_bucketed (tx_fee_details transaction)).

(** ** Reports *)

(** What a run reports: the totals and the collections. *)
Definition report (st : State)
    : gmap string (list FeeLineItem) * list Payout * list RawTransaction
      * list Charge * Totals :=
  (taxesAndFees st, payouts st, transactions st, charges st, totals st).

Definition outcome (r : result State) := report <$> r.

(** The state with the terminal blanked. *)
Definition erase (st : State) : State := set_console (fun _ => []) st.

(** ** Credentials *)

(** A variable that yields a credential: the prefix, and a value that is
    not empty. *)
Definition qualifies (variable : string * string) : bool :=
  startsWith variable.1 "STRIPE_TOKEN_" && negb (String.eqb variable.2 EmptyString).

Definition account_of (key : string) : string := toLowerCase (slice 13 key).

(** The value of the last variable, in enumeration order, that yields a
    credential for the account. *)
Definition resolved_secret (env : Environment) (name : string) : option string :=
  snd <$> List.find (fun variable =>
                       qualifies variable
                       && String.eqb (account_of variable.1) name)
            (rev env).

(** No credential is named [__proto__]. *)
Definition no_proto_account (env : Environment) : bool :=
  forallb (fun variable =>
             negb (qualifies variable
                   && String.eqb (account_of variable.1) "__proto__")) env.

(** The callback, on a variable and its value. *)
Definition variable_callback (clients : ClientsObject)
    (variable : string * string) : ClientsObject :=
  if qualifies variable then
    set_property (account_of variable.1) (NewStripe variable.2 "2023-08-16")
      clients
  else clients.

(** ** Summaries of a ledger *)

Definition sum_of {A : Type} (f : A -> Z) (l : list A) : Z :=
  fold_right (fun x acc => f x + acc) 0 l.

Definition is_pending (transaction : RawTransaction) : bool :=
  String.eqb (tx_status transaction) "pending".

(** Past the guards, and of the given type. *)
Definition of_type (type : string) (transaction : RawTransaction) : bool :=
  processed transaction && String.eqb (tx_type transaction) type.

(** Neither counted as pending nor processed: one of the two logging
    [continue] branches. *)
Definition unrecognized (transaction : RawTransaction) : bool :=
  negb (is_pending transaction) && negb (processed transaction).

(** The line those branches write. *)
Definition log_line (transaction : RawTransaction) : LogLine :=
  if negb (String.eqb (tx_status transaction) "available") then
    ConsoleError transaction
  else
    SpinnerWarn ("Unknown transaction type: " +:+ tx_type transaction
                 +:+ ", id: " +:+ tx_id transaction).

(** The line items of one charge that carry the tag [key]. *)
Definition line_items (key : string) (transaction : RawTransaction)
    : list FeeLineItem :=
  map (fee_line_item transaction) (tagged key (tx_fee_details transaction)).

Definition totals_plus (a b : Totals) : Totals :=
  {| pending_transactions := pending_transactions a + pending_transactions b;
     payouts_gross := payouts_gross a + payouts_gross b;
     payouts_net := payouts_net a + payouts_net b;
     payouts_fees := payouts_fees a + payouts_fees b;
     stripe_fees := stripe_fees a + stripe_fees b;
     charge_gross := charge_gross a + charge_gross b;
     charge_net := charge_net a + charge_net b;
     charge_fees := charge_fees a + charge_fees b;
     charge_stripe_fees := charge_stripe_fees a + charge_stripe_fees b;
     charge_application_fees :=
       charge_application_fees a + charge_application_fees b;
     charge_tax_fees := charge_tax_fees a + charge_tax_fees b |}.

(** What a ledger adds to each total. *)
Definition ledger_totals (listed : list RawTransaction) : Totals :=
  let paid := List.filter (of_type "payout") listed in
  let charged := List.filter (of_type "charge") listed in
  {| pending_transactions := Z.of_nat (length (List.filter is_pending listed));
     payouts_gross := sum_of (fun t => tx_amount t * -1) paid;
     payouts_net := sum_of (fun t => tx_net t * -1) paid;
     payouts_fees := sum_of tx_fee paid;
     stripe_fees :=
       sum_of (fun t => tx_amount t * -1)
         (List.filter (of_type "stripe_fee") listed);
     charge_gross := sum_of tx_amount charged;
     charge_net := sum_of tx_net charged;
     charge_fees := sum_of tx_fee charged;
     charge_stripe_fees :=
       sum_of (fun t => stripe_share (tx_fee_details t)) charged;
     charge_application_fees :=
       sum_of (fun t => application_share (tx_fee_details t)) charged;
     charge_tax_fees := sum_of (fun t => tax_share (tx_fee_details t)) charged |}.

(** The state [st'] is the state [st] after the loop over [listed]. *)
Definition summarises (listed : list RawTransaction) (st st' : State) : Prop :=
  transactions st' = (transactions st ++ List.filter processed listed)%list
  ∧ payouts st'
    = (payouts st
       ++ map payout_record (List.filter (of_type "payout") listed))%list
  ∧ charges st'
    = (charges st
       ++ map charge_record (List.filter (of_type "charge") listed))%list
  ∧ console st'
    = (console st ++ map log_line (List.filter unrecognized listed))%list
  ∧ (∀ key,
       taxesAndFees st' !! key
       = (fun arr =>
            (arr ++ flat_map (line_items key)
                      (List.filter (of_type "charge") listed))%list)
         <$> taxesAndFees st !! key)
  ∧ totals st' = totals_plus (totals st) (ledger_totals listed).

(** A ledger with one transaction of every disposition. *)
Definition sample_ledger : list RawTransaction :=
  [sample_transaction "charge" "available" 1000 950 50
     [sample_fee "stripe_fee" 30; sample_fee "tax" 20];
   sample_transaction "payout" "pending" (-5000) (-4950) 50 [];
   sample_transaction "payout" "available" (-5000) (-4950) 50 [];
   sample_transaction "stripe_fee" "available" (-250) (-250) 0 [];
   sample_transaction "refund" "available" (-100) (-100) 0 [];
   sample_transaction "charge" "failed" 700 700 0 []].

(** ** Where an entry of [clients] comes from *)

Definition prefixed (variable : string * string) : bool :=
  startsWith variable.1 "STRIPE_TOKEN_".

(** The entry under [name] was made from a variable of the snapshot with
    the prefix, that lowercased suffix and a value that is not empty. *)
Definition from_variable (env : Environment) (name : string)
    (client : StripeClient) : Prop :=
  name ≠ "__proto__"
  ∧ client_apiVersion client = "2023-08-16"
  ∧ client_secret client ≠ EmptyString
  ∧ ∃ key,
      key ∈ env.*1
      ∧ startsWith key "STRIPE_TOKEN_" = true
      ∧ account_of key = name
      ∧ env_get env key = Some (client_secret client).

(** * Properties *)

(** ** Strings and the type guards *)

Lemma eqb_false_of_ne (a b : string) : a ≠ b → String.eqb a b = false.
Proof. intros H. by apply String.eqb_neq. Qed.

Lemma includes_true (arr : list string) (x : string) :
  includes arr x = true ↔ x ∈ arr.
Proof.
  unfold includes. rewrite existsb_exists. split.
  - intros (y & Hin & Heq). apply String.eqb_eq in Heq. subst y.
    by apply list_elem_of_In.
  - intros Hin. exists x. split; [by apply list_elem_of_In | apply String.eqb_refl].
Qed.

Lemma includes_false (arr : list string) (x : string) :
  includes arr x = false ↔ x ∉ arr.
Proof.
  rewrite <- includes_true. destruct (includes arr x); split; congruence.
Qed.

Lemma loop_body_processed (transaction : RawTransaction) (st : State) :
  processed transaction = true →
  loop_body transaction st =
    (st1 ← on_charge transaction
             (on_payout transaction (on_stripe_fee transaction st));
     Ok (set_transactions (push transaction) st1)).
Proof.
  unfold processed, loop_body. intros [Hs Ht]%andb_true_iff.
  apply String.eqb_eq in Hs. rewrite Hs, Ht. reflexivity.
Qed.

Lemma loop_body_stripe_fee (transaction : RawTransaction) (st : State) :
  tx_status transaction = "available" →
  tx_type transaction = "stripe_fee" →
  loop_body transaction st
  = Ok (set_transactions (push transaction)
          (set_totals (add_stripe_fees (tx_amount transaction * -1)) st)).
Proof.
  intros Hs Ht.
  rewrite loop_body_processed by (unfold processed; by rewrite Hs, Ht).
  unfold on_stripe_fee, on_payout, on_charge. by rewrite Ht.
Qed.

Lemma loop_body_payout (transaction : RawTransaction) (st : State) :
  tx_status transaction = "available" →
  tx_type transaction = "payout" →
  loop_body transaction st
  = Ok (set_transactions (push transaction)
          (set_payouts (push (payout_record transaction))
             (set_totals (fun t =>
                add_payouts_fees (tx_fee transaction)
                  (add_payouts_net (tx_net transaction * -1)
                     (add_payouts_gross (tx_amount transaction * -1) t))) st))).
Proof.
  intros Hs Ht.
  rewrite loop_body_processed by (unfold processed; by rewrite Hs, Ht).
  unfold on_stripe_fee, on_payout, on_charge. by rewrite Ht.
Qed.

(** C7. A transaction whose status is neither "pending" nor "available",
    or an available one whose type is none of charge, payout and
    stripe_fee, changes no total (the pending counter included) and enters
    neither the audit list nor a classified collection; the loop body
    returns normally, having written one line to the terminal, and the
    loop goes on with the next transaction. *)
Theorem unrecognized_transaction_is_skipped
    (transaction : RawTransaction) (rest : list RawTransaction) (st : State) :
  (tx_status transaction ≠ "pending" ∧ tx_status transaction ≠ "available")
  ∨ (tx_status transaction = "available"
     ∧ includes knownTransactionTypes (tx_type transaction) = false) →
  ∃ st' line,
    loop_body transaction st = Ok st'
    ∧ totals st' = totals st
    ∧ transactions st' = transactions st
    ∧ payouts st' = payouts st
    ∧ charges st' = charges st
    ∧ taxesAndFees st' = taxesAndFees st
    ∧ console st' = (console st ++ [line])%list
    ∧ for_await (transaction :: rest) st = for_await rest st'.
Proof.
  intros [[Hp Ha] | [Ha Ht]].
  - exists (set_console (push (ConsoleError transaction)) st),
      (ConsoleError transaction).
    assert (Hbody : loop_body transaction st
                    = Ok (set_console (push (ConsoleError transaction)) st)).
    { unfold loop_body.
      by rewrite (eqb_false_of_ne _ _ Hp), (eqb_false_of_ne _ _ Ha). }
    repeat split; try done.
    unfold for_await. simpl. by rewrite Hbody.
  - set (line := SpinnerWarn ("Unknown transaction type: "
                              +:+ tx_type transaction
                              +:+ ", id: " +:+ tx_id transaction)).
    exists (set_console (push line) st), line.
    assert (Hbody : loop_body transaction st = Ok (set_console (push line) st)).
    { unfold loop_body. by rewrite Ha, Ht. }
    repeat split; try done.
    unfold for_await. simpl. by rewrite Hbody.
Qed.

Lemma unrecognized_transaction_is_skipped_witness :
  ∃ st' line,
    loop_body (sample_transaction "refund" "available" (-100) (-100) 0 [])
      blank_state = Ok st'
    ∧ totals st' = totals blank_state
    ∧ transactions st' = transactions blank_state
    ∧ payouts st' = payouts blank_state
    ∧ charges st' = charges blank_state
    ∧ taxesAndFees st' = taxesAndFees blank_state
    ∧ console st' = (console blank_state ++ [line])%list
    ∧ for_await [sample_transaction "refund" "available" (-100) (-100) 0 []]
        blank_state = for_await [] st'.
Proof.
  apply (unrecognized_transaction_is_skipped
           (sample_transaction "refund" "available" (-100) (-100) 0 [])
           [] blank_state).
  right. split; reflexivity.
Defined.

(** ** Fee and payout transactions *)

(** C6. An available transaction of type stripe_fee with amount A adds
    exactly -A to the stripe-fees total and leaves every other total as it
    was; the payout, charge and fee-line-item collections gain no record.
    The raw transaction itself is recorded in the audit list. *)
Theorem stripe_fee_transaction_negates_amount
    (transaction : RawTransaction) (st : State) :
  tx_status transaction = "available" →
  tx_type transaction = "stripe_fee" →
  ∃ st',
    loop_body transaction st = Ok st'
    ∧ stripe_fees (totals st')
      = stripe_fees (totals st) + - tx_amount transaction
    ∧ totals st'
      = add_stripe_fees (- tx_amount transaction) (totals st)
    ∧ payouts st' = payouts st
    ∧ charges st' = charges st
    ∧ taxesAndFees st' = taxesAndFees st
    ∧ transactions st' = (transactions st ++ [transaction])%list.
Proof.
  intros Hs Ht.
  eexists. split; [by apply loop_body_stripe_fee |].
  simpl. replace (tx_amount transaction * -1) with (- tx_amount transaction)
    by lia.
  repeat split; reflexivity.
Qed.

Lemma stripe_fee_transaction_negates_amount_witness :
  ∃ st',
    loop_body (sample_transaction "stripe_fee" "available" (-250) (-250) 0 [])
      blank_state = Ok st'
    ∧ stripe_fees (totals st') = stripe_fees (totals blank_state) + - (-250)
    ∧ totals st' = add_stripe_fees (- (-250)) (totals blank_state)
    ∧ payouts st' = payouts blank_state
    ∧ charges st' = charges blank_state
    ∧ taxesAndFees st' = taxesAndFees blank_state
    ∧ transactions st'
      = (transactions blank_state
         ++ [sample_transaction "stripe_fee" "available" (-250) (-250) 0 []])%list.
Proof.
  apply (stripe_fee_transaction_negates_amount
           (sample_transaction "stripe_fee" "available" (-250) (-250) 0 [])
           blank_state); reflexivity.
Defined.

(** C5. An available payout with amount A, net N and fee F adds -A to
    payout-gross, -N to payout-net and F to payout-fees, and appends
    exactly one Payout record, whose arrival date is the date of the
    nested source's [available_on] (not of the transaction's own) and
    whose amount is A itself. *)
Theorem payout_transaction_totals_and_record
    (transaction : RawTransaction) (st : State) :
  tx_status transaction = "available" →
  tx_type transaction = "payout" →
  ∃ st' record,
    loop_body transaction st = Ok st'
    ∧ payouts_gross (totals st')
      = payouts_gross (totals st) + - tx_amount transaction
    ∧ payouts_net (totals st') = payouts_net (totals st) + - tx_net transaction
    ∧ payouts_fees (totals st') = payouts_fees (totals st) + tx_fee transaction
    ∧ payouts st' = (payouts st ++ [record])%list
    ∧ payout_arrival_date record
      = NewDate (source_available_on (tx_source transaction) * 1000)
    ∧ payout_available_on record = NewDate (tx_available_on transaction * 1000)
    ∧ payout_amount record = tx_amount transaction
    ∧ payout_transaction_id record = tx_id transaction.
Proof.
  intros Hs Ht.
  eexists. exists (payout_record transaction).
  split; [by apply loop_body_payout |].
  simpl. repeat split; try reflexivity; lia.
Qed.

Lemma payout_transaction_totals_and_record_witness :
  ∃ st' record,
    loop_body (sample_transaction "payout" "available" (-5000) (-4950) 50 [])
      blank_state = Ok st'
    ∧ payouts_gross (totals st') = payouts_gross (totals blank_state) + - (-5000)
    ∧ payouts_net (totals st') = payouts_net (totals blank_state) + - (-4950)
    ∧ payouts_fees (totals st') = payouts_fees (totals blank_state) + 50
    ∧ payouts st' = (payouts blank_state ++ [record])%list
    ∧ payout_arrival_date record = NewDate (1700086400 * 1000)
    ∧ payout_available_on record = NewDate (1700600000 * 1000)
    ∧ payout_amount record = -5000
    ∧ payout_transaction_id record = "txn_1".
Proof.
  apply (payout_transaction_totals_and_record
           (sample_transaction "payout" "available" (-5000) (-4950) 50 [])
           blank_state); reflexivity.
Defined.

(** ** Charges and their fee details *)

Lemma has_buckets_fresh : has_buckets fresh_taxesAndFees.
Proof. vm_compute. reflexivity. Qed.

Lemma has_buckets_declare_locals (st : State) :
  has_buckets (taxesAndFees (declare_locals st)).
Proof. exact has_buckets_fresh. Qed.

Lemma has_buckets_lookup (m : gmap string (list FeeLineItem)) (key : string) :
  has_buckets m → includes bucket_names key = true → is_Some (m !! key).
Proof.
  intros Hm Hk. apply elem_of_dom. rewrite Hm.
  apply elem_of_list_to_set. by apply includes_true.
Qed.

Lemma has_buckets_lookup_None (m : gmap string (list FeeLineItem)) (key : string) :
  has_buckets m → includes bucket_names key = false → m !! key = None.
Proof.
  intros Hm Hk. apply not_elem_of_dom. rewrite Hm.
  rewrite elem_of_list_to_set. by apply includes_false.
Qed.

Lemma fee_callback_bucketed (transaction : RawTransaction) (fee : FeeDetail)
    (st : State) :
  has_buckets (taxesAndFees st) →
  includes bucket_names (fee_type fee) = true →
  fee_callback transaction fee st = Ok (route_fee transaction st fee).
Proof.
  intros Hm Hk.
  destruct (has_buckets_lookup _ _ Hm Hk) as [arr Harr].
  unfold fee_callback, push_fee, route_fee. simpl. rewrite Harr.
  f_equal. unfold set_taxesAndFees. simpl. f_equal.
  apply map_eq. intros k. destruct (decide (fee_type fee = k)) as [<- | Hne].
  - by rewrite lookup_insert_eq, lookup_alter_eq, Harr.
  - by rewrite lookup_insert_ne, lookup_alter_ne.
Qed.

Lemma fee_callback_unbucketed (transaction : RawTransaction) (fee : FeeDetail)
    (st : State) :
  has_buckets (taxesAndFees st) →
  includes bucket_names (fee_type fee) = false →
  ∃ msg, fee_callback transaction fee st = Throw (TypeError msg).
Proof.
  intros Hm Hk. unfold fee_callback, push_fee. simpl.
  rewrite (has_buckets_lookup_None _ _ Hm Hk).
  destruct (includes object_prototype_members (fee_type fee));
    eexists; reflexivity.
Qed.

Lemma route_fee_has_buckets (transaction : RawTransaction) (fee : FeeDetail)
    (st : State) :
  has_buckets (taxesAndFees st) →
  has_buckets (taxesAndFees (route_fee transaction st fee)).
Proof. unfold has_buckets. simpl. by rewrite dom_alter_L. Qed.

Lemma fold_route_fee_has_buckets (transaction : RawTransaction)
    (fee_details : list FeeDetail) (st : State) :
  has_buckets (taxesAndFees st) →
  has_buckets (taxesAndFees (fold_left (route_fee transaction) fee_details st)).
Proof.
  revert st. induction fee_details as [| fee rest IH]; intros st Hm; [done |].
  simpl. apply IH. by apply route_fee_has_buckets.
Qed.

(** With every tag in a bucket the [forEach] runs to its end. *)
Lemma forEach_fee_callback_bucketed (transaction : RawTransaction)
    (fee_details : list FeeDetail) (st : State) :
  has_buckets (taxesAndFees st) →
  tags_bucketed fee_details = true →
  forEach (fee_callback transaction) fee_details st
  = Ok (fold_left (route_fee transaction) fee_details st).
Proof.
  revert st. induction fee_details as [| fee rest IH]; intros st Hm Htags; [done |].
  simpl in Htags. apply andb_true_iff in Htags as [Hfee Hrest].
  simpl. rewrite (fee_callback_bucketed _ _ _ Hm Hfee). simpl.
  apply IH; [by apply route_fee_has_buckets | done].
Qed.

(** With a tag outside the buckets the [forEach] throws. *)
Lemma forEach_fee_callback_unbucketed (transaction : RawTransaction)
    (fee_details : list FeeDetail) (st : State) :
  has_buckets (taxesAndFees st) →
  tags_bucketed fee_details = false →
  ∃ msg, forEach (fee_callback transaction) fee_details st
         = Throw (TypeError msg).
Proof.
  revert st. induction fee_details as [| fee rest IH]; intros st Hm Htags; [done |].
  simpl in Htags. simpl.
  destruct (includes bucket_names (fee_type fee)) eqn:Hfee.
  - rewrite (fee_callback_bucketed _ _ _ Hm Hfee). simpl.
    apply IH; [by apply route_fee_has_buckets | done].
  - destruct (fee_callback_unbucketed transaction fee st Hm Hfee) as [msg ->].
    by exists msg.
Qed.

Lemma shares_partition (fee_details : list FeeDetail) :
  stripe_share fee_details + application_share fee_details
  + tax_share fee_details = sum_amounts fee_details.
Proof.
  unfold stripe_share, application_share, tax_share, tagged.
  induction fee_details as [| fee rest IH]; [reflexivity |].
  simpl. destruct (String.eqb (fee_type fee) "stripe_fee") eqn:Hs.
  - apply String.eqb_eq in Hs. rewrite Hs. simpl. lia.
  - destruct (String.eqb (fee_type fee) "application_fee"); simpl; lia.
Qed.

Lemma tax_share_bucketed (fee_details : list FeeDetail) :
  tags_bucketed fee_details = true →
  tax_share fee_details = sum_amounts (tagged "tax" fee_details).
Proof.
  unfold tax_share, tagged, tags_bucketed.
  induction fee_details as [| fee rest IH]; [reflexivity |].
  simpl. intros [Hfee Hrest]%andb_true_iff.
  apply includes_true in Hfee. unfold bucket_names in Hfee.
  rewrite !elem_of_cons, elem_of_nil in Hfee.
  destruct Hfee as [-> | [-> | [-> | []]]]; simpl; rewrite IH; done.
Qed.

Lemma fold_route_fee_frame (transaction : RawTransaction)
    (fee_details : list FeeDetail) (st : State) :
  let st' := fold_left (route_fee transaction) fee_details st in
  payouts st' = payouts st ∧ transactions st' = transactions st
  ∧ charges st' = charges st ∧ console st' = console st.
Proof.
  revert st. induction fee_details as [| fee rest IH]; intros st; [done |].
  simpl. destruct (IH (route_fee transaction st fee)) as (-> & -> & -> & ->).
  done.
Qed.

(** Equalities of totals reduce to arithmetic on their fields. *)
Ltac totals_arith :=
  unfold add_charge_tax_fees, add_charge_application_fees,
    add_charge_stripe_fees, add_charge_fees, add_charge_gross, add_charge_net;
  simpl; f_equal; lia.

Lemma fold_route_fee_totals (transaction : RawTransaction)
    (fee_details : list FeeDetail) (st : State) :
  totals (fold_left (route_fee transaction) fee_details st)
  = add_charge_tax_fees (tax_share fee_details)
      (add_charge_application_fees (application_share fee_details)
         (add_charge_stripe_fees (stripe_share fee_details) (totals st))).
Proof.
  revert st. induction fee_details as [| fee rest IH]; intros st.
  - simpl. destruct (totals st).
    unfold tax_share, application_share, stripe_share. totals_arith.
  - simpl. rewrite IH. simpl.
    unfold tax_share, application_share, stripe_share, tagged, add_fee_total.
    simpl. destruct (totals st).
    destruct (String.eqb (fee_type fee) "stripe_fee") eqn:Hs.
    + apply String.eqb_eq in Hs. rewrite Hs. totals_arith.
    + destruct (String.eqb (fee_type fee) "application_fee"); totals_arith.
Qed.

Lemma fold_route_fee_buckets (transaction : RawTransaction)
    (fee_details : list FeeDetail) (st : State) (key : string) :
  taxesAndFees (fold_left (route_fee transaction) fee_details st) !! key
  = (fun arr => (arr ++ map (fee_line_item transaction)
                             (tagged key fee_details))%list)
    <$> taxesAndFees st !! key.
Proof.
  revert st. induction fee_details as [| fee rest IH]; intros st.
  - simpl. destruct (taxesAndFees st !! key); simpl; [| done].
    by rewrite app_nil_r.
  - simpl. rewrite IH. simpl. unfold tagged. simpl.
    destruct (String.eqb (fee_type fee) key) eqn:Hk.
    + apply String.eqb_eq in Hk. subst key. rewrite lookup_alter_eq.
      destruct (taxesAndFees st !! fee_type fee); simpl; [| done].
      unfold push. by rewrite <- app_assoc.
    + apply String.eqb_neq in Hk. by rewrite lookup_alter_ne.
Qed.

Lemma loop_body_charge (transaction : RawTransaction) (st : State) :
  tx_status transaction = "available" →
  tx_type transaction = "charge" →
  loop_body transaction st
  = (st1 ← forEach (fee_callback transaction) (tx_fee_details transaction) st;
     Ok (set_transactions (push transaction)
           (set_totals (fun t =>
              add_charge_net (tx_net transaction)
                (add_charge_gross (tx_amount transaction)
                   (add_charge_fees (tx_fee transaction) t)))
              (set_charges (push (charge_record transaction)) st1)))).
Proof.
  intros Hs Ht.
  rewrite loop_body_processed by (unfold processed; by rewrite Hs, Ht).
  unfold on_stripe_fee, on_payout, on_charge. rewrite Ht. simpl.
  by destruct (forEach (fee_callback transaction) (tx_fee_details transaction) st).
Qed.

(** An available charge whose fee tags all name a bucket: the three
    charge totals grow by amount, net and fee, the three fee totals grow
    together by the sum of the fee details, every bucket gains exactly the
    line items that carry its name, and one Charge record and one audit
    entry are appended. *)
Theorem charge_with_bucketed_tags (transaction : RawTransaction) (st : State) :
  has_buckets (taxesAndFees st) →
  tx_status transaction = "available" →
  tx_type transaction = "charge" →
  tags_bucketed (tx_fee_details transaction) = true →
  ∃ st',
    loop_body transaction st = Ok st'
    ∧ charge_gross (totals st') = charge_gross (totals st) + tx_amount transaction
    ∧ charge_net (totals st') = charge_net (totals st) + tx_net transaction
    ∧ charge_fees (totals st') = charge_fees (totals st) + tx_fee transaction
    ∧ (charge_stripe_fees (totals st') - charge_stripe_fees (totals st))
      + (charge_application_fees (totals st')
         - charge_application_fees (totals st))
      + (charge_tax_fees (totals st') - charge_tax_fees (totals st))
      = sum_amounts (tx_fee_details transaction)
    ∧ (∀ key,
         taxesAndFees st' !! key
         = (fun arr => (arr ++ map (fee_line_item transaction)
                                  (tagged key (tx_fee_details transaction)))%list)
           <$> taxesAndFees st !! key)
    ∧ charges st' = (charges st ++ [charge_record transaction])%list
    ∧ transactions st' = (transactions st ++ [transaction])%list
    ∧ payouts st' = payouts st
    ∧ has_buckets (taxesAndFees st').
Proof.
  intros Hm Hs Ht Htags.
  eexists. split.
  { rewrite (loop_body_charge _ _ Hs Ht).
    rewrite (forEach_fee_callback_bucketed _ _ _ Hm Htags). simpl. reflexivity. }
  pose proof (fold_route_fee_totals transaction (tx_fee_details transaction) st)
    as Htot.
  pose proof (fold_route_fee_frame transaction (tx_fee_details transaction) st)
    as (Hp & Htx & Hc & _).
  pose proof (shares_partition (tx_fee_details transaction)) as Hsum.
  simpl. rewrite Htot, Hp, Htx, Hc. simpl.
  repeat split; try reflexivity; try lia.
  - intros key. apply fold_route_fee_buckets.
  - by apply fold_route_fee_has_buckets.
Qed.

Lemma charge_with_bucketed_tags_witness :
  let transaction := sample_transaction "charge" "available" 1000 970 30
                       [sample_fee "stripe_fee" 30] in
  let st := declare_locals blank_state in
  ∃ st',
    loop_body transaction st = Ok st'
    ∧ charge_gross (totals st') = charge_gross (totals st) + 1000
    ∧ charge_net (totals st') = charge_net (totals st) + 970
    ∧ charge_fees (totals st') = charge_fees (totals st) + 30
    ∧ (charge_stripe_fees (totals st') - charge_stripe_fees (totals st))
      + (charge_application_fees (totals st')
         - charge_application_fees (totals st))
      + (charge_tax_fees (totals st') - charge_tax_fees (totals st))
      = sum_amounts (tx_fee_details transaction)
    ∧ (∀ key,
         taxesAndFees st' !! key
         = (fun arr => (arr ++ map (fee_line_item transaction)
                                  (tagged key (tx_fee_details transaction)))%list)
           <$> taxesAndFees st !! key)
    ∧ charges st' = (charges st ++ [charge_record transaction])%list
    ∧ transactions st' = (transactions st ++ [transaction])%list
    ∧ payouts st' = payouts st
    ∧ has_buckets (taxesAndFees st').
Proof.
  apply (charge_with_bucketed_tags
           (sample_transaction "charge" "available" 1000 970 30
              [sample_fee "stripe_fee" 30])
           (declare_locals blank_state)).
  - vm_compute. reflexivity.
  - reflexivity.
  - reflexivity.
  - reflexivity.
Defined.

(** C1. A fee-detail tag that is none of tax, stripe_fee and
    application_fee does not reach the tax bucket: the lookup of
    [taxesAndFees] under the tag finds no array, the loop body throws a
    TypeError on the first such line item of an available charge, and the
    loop ends there. *)
Theorem unbucketed_fee_tag_aborts (transaction : RawTransaction)
    (rest : list RawTransaction) (st : State) :
  has_buckets (taxesAndFees st) →
  tx_status transaction = "available" →
  tx_type transaction = "charge" →
  tags_bucketed (tx_fee_details transaction) = false →
  ∃ msg,
    loop_body transaction st = Throw (TypeError msg)
    ∧ for_await (transaction :: rest) st = Throw (TypeError msg).
Proof.
  intros Hm Hs Ht Htags.
  destruct (forEach_fee_callback_unbucketed transaction _ st Hm Htags)
    as [msg Hmsg].
  assert (Hbody : loop_body transaction st = Throw (TypeError msg)).
  { by rewrite (loop_body_charge _ _ Hs Ht), Hmsg. }
  exists msg. split; [done |].
  unfold for_await. simpl. by rewrite Hbody.
Qed.

Lemma unbucketed_fee_tag_aborts_witness :
  ∃ msg,
    loop_body
      (sample_transaction "charge" "available" 1000 950 50
         [sample_fee "stripe_fee" 30;
          sample_fee "payment_method_passthrough_fee" 20])
      (declare_locals blank_state) = Throw (TypeError msg)
    ∧ for_await
        [sample_transaction "charge" "available" 1000 950 50
           [sample_fee "stripe_fee" 30;
            sample_fee "payment_method_passthrough_fee" 20]]
        (declare_locals blank_state) = Throw (TypeError msg).
Proof.
  apply (unbucketed_fee_tag_aborts
           (sample_transaction "charge" "available" 1000 950 50
              [sample_fee "stripe_fee" 30;
               sample_fee "payment_method_passthrough_fee" 20])
           [] (declare_locals blank_state)).
  - vm_compute. reflexivity.
  - reflexivity.
  - reflexivity.
  - reflexivity.
Defined.

(** C4. At a charge that carries a fee detail tagged
    payment_method_passthrough_fee the pass throws, from any state: the
    charge totals are never increased for it and the line item enters no
    bucket. *)
Theorem passthrough_fee_charge_is_not_totalled (st : State) :
  classification_pass
    [sample_transaction "charge" "available" 1000 950 50
       [sample_fee "stripe_fee" 30;
        sample_fee "payment_method_passthrough_fee" 20]] st
  = Throw (TypeError "Cannot read properties of undefined (reading 'push')").
Proof. reflexivity. Qed.

(** ** The scenarios of the specification *)

(** One available charge of 1000 with a stripe fee of 30. *)
Example scenario_one_charge :
  ∃ st,
    classification_pass
      [sample_transaction "charge" "available" 1000 970 30
         [sample_fee "stripe_fee" 30]] blank_state = Ok st
    ∧ charge_gross (totals st) = 1000
    ∧ charge_net (totals st) = 970
    ∧ charge_fees (totals st) = 30
    ∧ charge_stripe_fees (totals st) = 30
    ∧ charge_amount <$> charges st = [1000]
    ∧ taxesAndFees st !! "tax" = Some []
    ∧ taxesAndFees st !! "application_fee" = Some [].
Proof. eexists. split; [reflexivity |]. repeat split; vm_compute; reflexivity. Qed.

(** One payout of -5000, net -4950, fee 50. *)
Example scenario_one_payout :
  ∃ st,
    classification_pass
      [sample_transaction "payout" "available" (-5000) (-4950) 50 []]
      blank_state = Ok st
    ∧ payouts_gross (totals st) = 5000
    ∧ payouts_net (totals st) = 4950
    ∧ payouts_fees (totals st) = 50
    ∧ payout_amount <$> payouts st = [-5000].
Proof. eexists. split; [reflexivity |]. repeat split. Qed.

(** One pending transaction and nothing else. *)
Example scenario_one_pending :
  ∃ st,
    classification_pass
      [sample_transaction "charge" "pending" 1000 970 30 []] blank_state = Ok st
    ∧ totals st = add_pending_transactions 1 fresh_totals
    ∧ transactions st = [].
Proof. eexists. split; [reflexivity |]. repeat split. Qed.

(** A pending transaction counts once and changes nothing else. *)
Lemma pending_transaction_is_counted (transaction : RawTransaction) (st : State) :
  tx_status transaction = "pending" →
  loop_body transaction st = Ok (set_totals (add_pending_transactions 1) st).
Proof. intros Hs. unfold loop_body. by rewrite Hs. Qed.

(** ** The audit list *)

Lemma loop_body_returns (transaction : RawTransaction) (st : State) :
  has_buckets (taxesAndFees st) →
  aborts transaction = false →
  ∃ st',
    loop_body transaction st = Ok st'
    ∧ has_buckets (taxesAndFees st')
    ∧ transactions st'
      = (transactions st
         ++ (if processed transaction then [transaction] else []))%list.
Proof.
  intros Hm Hab. unfold aborts in Hab.
  destruct (processed transaction) eqn:Hproc.
  - pose proof Hproc as [Hs Hk]%andb_true_iff.
    apply String.eqb_eq in Hs. apply includes_true in Hk.
    unfold knownTransactionTypes in Hk.
    rewrite !elem_of_cons, elem_of_nil in Hk.
    destruct Hk as [Ht | [Ht | [Ht | []]]].
    + rewrite Ht in Hab. simpl in Hab. apply negb_false_iff in Hab.
      destruct (charge_with_bucketed_tags transaction st Hm Hs Ht Hab)
        as (st' & Hbody & _ & _ & _ & _ & _ & _ & Htx & _ & Hm').
      by exists st'.
    + eexists. split; [by apply loop_body_payout | by split].
    + eexists. split; [by apply loop_body_stripe_fee | by split].
  - rewrite app_nil_r. unfold processed in Hproc. unfold loop_body.
    destruct (String.eqb (tx_status transaction) "pending") eqn:Hp;
      [by eexists |].
    destruct (String.eqb (tx_status transaction) "available") eqn:Ha;
      simpl in *; [| by eexists].
    rewrite Hproc. simpl. by eexists.
Qed.

Lemma for_await_returns (listed : list RawTransaction) (st : State) :
  has_buckets (taxesAndFees st) →
  forallb (fun transaction => negb (aborts transaction)) listed = true →
  ∃ st',
    for_await listed st = Ok st'
    ∧ has_buckets (taxesAndFees st')
    ∧ transactions st' = (transactions st ++ List.filter processed listed)%list.
Proof.
  revert st. induction listed as [| transaction rest IH]; intros st Hm Hall.
  - exists st. by rewrite app_nil_r.
  - simpl in Hall. apply andb_true_iff in Hall as [Hab Hrest].
    apply negb_true_iff in Hab.
    destruct (loop_body_returns transaction st Hm Hab) as (st1 & Hbody & Hm1 & Htx1).
    destruct (IH st1 Hm1 Hrest) as (st' & Hloop & Hm' & Htx').
    exists st'. split; [| split; [done |]].
    + unfold for_await in *. simpl. by rewrite Hbody.
    + rewrite Htx', Htx1. simpl.
      destruct (processed transaction); by rewrite <- app_assoc.
Qed.

(** C3, as the code has it. When no available charge of the input carries
    a fee tag outside the three buckets, the pass returns and its audit
    list holds exactly the available transactions of type charge, payout
    or stripe_fee, in input order. *)
Theorem audit_list_is_the_processed_transactions
    (listed : list RawTransaction) (st : State) :
  forallb (fun transaction => negb (aborts transaction)) listed = true →
  ∃ st',
    classification_pass listed st = Ok st'
    ∧ transactions st' = List.filter processed listed.
Proof.
  intros Hall.
  destruct (for_await_returns listed (declare_locals st)
              (has_buckets_declare_locals st) Hall) as (st' & Hloop & _ & Htx).
  exists st'. split; done.
Qed.

Lemma audit_list_is_the_processed_transactions_witness :
  ∃ st',
    classification_pass
      [sample_transaction "charge" "available" 1000 970 30
         [sample_fee "stripe_fee" 30];
       sample_transaction "payout" "pending" (-5000) (-4950) 50 [];
       sample_transaction "stripe_fee" "available" (-250) (-250) 0 [];
       sample_transaction "refund" "available" (-100) (-100) 0 []]
      blank_state = Ok st'
    ∧ transactions st'
      = List.filter processed
          [sample_transaction "charge" "available" 1000 970 30
             [sample_fee "stripe_fee" 30];
           sample_transaction "payout" "pending" (-5000) (-4950) 50 [];
           sample_transaction "stripe_fee" "available" (-250) (-250) 0 [];
           sample_transaction "refund" "available" (-100) (-100) 0 []].
Proof.
  apply (audit_list_is_the_processed_transactions
           [sample_transaction "charge" "available" 1000 970 30
              [sample_fee "stripe_fee" 30];
            sample_transaction "payout" "pending" (-5000) (-4950) 50 [];
            sample_transaction "stripe_fee" "available" (-250) (-250) 0 [];
            sample_transaction "refund" "available" (-100) (-100) 0 []]
           blank_state).
  reflexivity.
Defined.

(** C3, as stated, fails: an available stripe_fee transaction enters the
    audit list. *)
Lemma stripe_fee_enters_audit_list :
  ∃ st',
    classification_pass
      [sample_transaction "stripe_fee" "available" (-250) (-250) 0 []]
      blank_state = Ok st'
    ∧ transactions st'
      = [sample_transaction "stripe_fee" "available" (-250) (-250) 0 []]
    ∧ tx_type (sample_transaction "stripe_fee" "available" (-250) (-250) 0 [])
      = "stripe_fee".
Proof. eexists. repeat split. Qed.

(** ** No state is carried between runs *)

Lemma report_erase (st : State) : report (erase st) = report st.
Proof. reflexivity. Qed.

Lemma outcome_erase (r : result State) : outcome (erase <$> r) = outcome r.
Proof. by destruct r. Qed.

Lemma fee_callback_console (f : list LogLine → list LogLine)
    (transaction : RawTransaction) (fee : FeeDetail) (st : State) :
  fee_callback transaction fee (set_console f st)
  = set_console f <$> fee_callback transaction fee st.
Proof.
  unfold fee_callback, push_fee. simpl.
  destruct (taxesAndFees st !! fee_type fee); [done |].
  by destruct (includes object_prototype_members (fee_type fee)).
Qed.

Lemma forEach_fee_callback_console (f : list LogLine → list LogLine)
    (transaction : RawTransaction) (fee_details : list FeeDetail) (st : State) :
  forEach (fee_callback transaction) fee_details (set_console f st)
  = set_console f <$> forEach (fee_callback transaction) fee_details st.
Proof.
  revert st. induction fee_details as [| fee rest IH]; intros st; [done |].
  simpl. rewrite fee_callback_console.
  destruct (fee_callback transaction fee st) as [st1 | e]; simpl; [| done].
  apply IH.
Qed.

Lemma forEach_fee_callback_any_console (transaction : RawTransaction)
    (fee_details : list FeeDetail) (st : State) :
  forEach (fee_callback transaction) fee_details st
  = set_console (fun _ => console st)
    <$> forEach (fee_callback transaction) fee_details (erase st).
Proof.
  rewrite <- forEach_fee_callback_console. by destruct st.
Qed.

Lemma loop_body_erase (transaction : RawTransaction) (st : State) :
  erase <$> loop_body transaction (erase st)
  = erase <$> loop_body transaction st.
Proof.
  unfold loop_body.
  destruct (String.eqb (tx_status transaction) "pending"); [done |].
  destruct (negb (String.eqb (tx_status transaction) "available")); [done |].
  destruct (negb (includes knownTransactionTypes (tx_type transaction)));
    [done |].
  unfold on_charge.
  destruct (String.eqb (tx_type transaction) "charge"); simpl.
  - rewrite (forEach_fee_callback_any_console transaction _
               (on_payout transaction (on_stripe_fee transaction st))).
    replace (erase (on_payout transaction (on_stripe_fee transaction st)))
      with (on_payout transaction (on_stripe_fee transaction (erase st))).
    + by destruct (forEach (fee_callback transaction)
                     (tx_fee_details transaction)
                     (on_payout transaction
                        (on_stripe_fee transaction (erase st)))).
    + unfold on_payout, on_stripe_fee.
      by destruct (String.eqb (tx_type transaction) "stripe_fee"),
        (String.eqb (tx_type transaction) "payout").
  - unfold on_payout, on_stripe_fee.
    by destruct (String.eqb (tx_type transaction) "stripe_fee"),
      (String.eqb (tx_type transaction) "payout").
Qed.

Lemma Ok_inj {A : Type} (a b : A) : Ok a = Ok b → a = b.
Proof. by intros [=]. Qed.

Lemma for_await_erase (listed : list RawTransaction) (st : State) :
  erase <$> for_await listed (erase st) = erase <$> for_await listed st.
Proof.
  revert st. induction listed as [| transaction rest IH]; intros st; [done |].
  unfold for_await in *. simpl.
  pose proof (loop_body_erase transaction st) as Hbody.
  destruct (loop_body transaction st) as [st1 | e],
    (loop_body transaction (erase st)) as [st2 | e']; simpl in *;
    try discriminate.
  - apply Ok_inj in Hbody. rewrite <- (IH st1), <- (IH st2).
    by rewrite Hbody.
  - done.
Qed.

(** The report of a pass does not depend on the state it starts in. *)
Lemma classification_pass_ignores_state (listed : list RawTransaction)
    (st1 st2 : State) :
  outcome (classification_pass listed st1)
  = outcome (classification_pass listed st2).
Proof.
  unfold classification_pass.
  rewrite <- (outcome_erase (for_await listed (declare_locals st1))).
  rewrite <- (outcome_erase (for_await listed (declare_locals st2))).
  rewrite <- (for_await_erase listed (declare_locals st1)).
  rewrite <- (for_await_erase listed (declare_locals st2)).
  reflexivity.
Qed.

(** C10. What the pass reports is a function of its input alone: from any
    two start states it reports the same totals and the same collections,
    or the same error; in particular, running it a second time over the
    same input, in the state the first run left, reports what the first
    run reported. *)
Theorem report_depends_on_the_input_alone (listed : list RawTransaction)
    (st1 st2 : State) :
  outcome (classification_pass listed st1)
  = outcome (classification_pass listed st2)
  ∧ outcome (classification_pass listed st1 ≫= classification_pass listed)
    = outcome (classification_pass listed st1).
Proof.
  split; [apply classification_pass_ignores_state |].
  destruct (classification_pass listed st1) as [st' | e] eqn:Hrun.
  - change (outcome (classification_pass listed st') = outcome (Ok st')).
    rewrite <- Hrun. apply classification_pass_ignores_state.
  - reflexivity.
Qed.

(** ** The window of the listing request *)

Lemma created_matches_closed (period : Period) (created : Z) :
  created_matches (list_params period) created = true
  ↔ valueOf (period_start period) <= created * 1000
    ∧ created * 1000 <= valueOf (period_end period).
Proof.
  unfold created_matches, list_params. simpl.
  rewrite andb_true_iff, !Qle_bool_iff.
  unfold Qle, Qdiv, Qmult, Qinv, inject_Z. simpl. lia.
Qed.

(** C2, as the code has it. The listing request covers the closed
    interval from start to end in created-time: a ledger entry is yielded
    exactly when its created instant lies between the start and the end
    of the period, both included, and the entries keep their order. *)
Theorem listing_covers_closed_window (period : Period)
    (entries : list RawTransaction) (transaction : RawTransaction) :
  transaction ∈ balanceTransactions_list entries (list_params period)
  ↔ transaction ∈ entries
    ∧ valueOf (period_start period) <= tx_created transaction * 1000
    ∧ tx_created transaction * 1000 <= valueOf (period_end period).
Proof.
  unfold balanceTransactions_list.
  rewrite list_elem_of_In, filter_In, <- list_elem_of_In.
  by rewrite created_matches_closed.
Qed.

(** C2, as stated, fails: an entry created at the very end of the period
    is yielded. *)
Lemma transaction_created_at_end_is_listed :
  let selected := {| period_start := NewDate 1696111200000;
                     period_end := NewDate 1698793200000 |} in
  let entry := {| tx_id := "txn_2"; tx_type := "charge";
                  tx_status := "available"; tx_amount := 1000; tx_net := 970;
                  tx_fee := 30; tx_currency := "eur";
                  tx_created := 1698793200; tx_available_on := 1699398000;
                  tx_source := sample_source; tx_fee_details := [] |} in
  tx_created entry * 1000 = valueOf (period_end selected)
  ∧ balanceTransactions_list [entry] (list_params selected) = [entry].
Proof. split; reflexivity. Qed.

(** ** Credential discovery *)

Lemma env_get_elem_of (env : Environment) (key value : string) :
  NoDup env.*1 → (key, value) ∈ env → env_get env key = Some value.
Proof.
  induction env as [| [k v] rest IH]; intros Hnd Hin.
  - by apply elem_of_nil in Hin.
  - simpl in Hnd. apply NoDup_cons in Hnd as [Hk Hrest].
    apply elem_of_cons in Hin as [Heq | Hin]; simpl.
    + injection Heq as -> ->. by rewrite String.eqb_refl.
    + destruct (String.eqb k key) eqn:Hkk; [| by apply IH].
      apply String.eqb_eq in Hkk. subst k. exfalso. apply Hk.
      apply list_elem_of_fmap. by exists (key, value).
Qed.

Lemma env_callback_variable (env : Environment) (clients : ClientsObject)
    (key value : string) :
  env_get env key = Some value →
  env_callback env clients key = variable_callback clients (key, value).
Proof.
  intros Hget. unfold env_callback, variable_callback, qualifies. simpl.
  rewrite Hget. destruct (startsWith key "STRIPE_TOKEN_"); [| done].
  simpl. by destruct (String.eqb value EmptyString).
Qed.

Lemma fold_env_callback (env variables : Environment) (clients : ClientsObject) :
  (∀ key value, (key, value) ∈ variables → env_get env key = Some value) →
  fold_left (env_callback env) variables.*1 clients
  = fold_left variable_callback variables clients.
Proof.
  revert clients. induction variables as [| [k v] rest IH]; intros clients Hget;
    [done |].
  simpl. rewrite (env_callback_variable env clients k v)
    by (apply Hget; apply elem_of_cons; by left).
  apply IH. intros key value Hin. apply Hget. apply elem_of_cons. by right.
Qed.

Lemma fold_variable_callback_lookup (env : Environment) (name : string) :
  no_proto_account env = true →
  own (fold_left variable_callback env empty_object) !! name
  = (fun secret => NewStripe secret "2023-08-16") <$> resolved_secret env name.
Proof.
  unfold resolved_secret.
  induction env as [| variable rest IH] using rev_ind; intros Hproto; [done |].
  unfold no_proto_account in Hproto.
  rewrite forallb_app in Hproto. simpl in Hproto.
  apply andb_true_iff in Hproto as [Hrest Hvar]. rewrite andb_true_r in Hvar.
  rewrite fold_left_app, rev_app_distr. simpl.
  unfold variable_callback at 1.
  destruct (qualifies variable) eqn:Hq; simpl; [| by apply IH].
  simpl in Hvar. apply negb_true_iff in Hvar. unfold set_property. rewrite Hvar.
  simpl. destruct (String.eqb (account_of variable.1) name) eqn:Hname.
  - apply String.eqb_eq in Hname. subst name. simpl. by rewrite lookup_insert_eq.
  - apply String.eqb_neq in Hname. rewrite lookup_insert_ne by done. by apply IH.
Qed.

(** C9, as the code has it. For a snapshot with distinct names and no
    credential named __proto__, the mapping has an entry under a name
    exactly when some variable with the prefix STRIPE_TOKEN_, that
    lowercased suffix and a non-empty value exists, and the entry is the
    client made from the value of the last such variable; when no variable
    yields a credential the mapping and the list of accounts are empty. *)
Theorem credentials_are_the_last_matching_variables (env : Environment) :
  NoDup env.*1 →
  no_proto_account env = true →
  (∀ name,
     own (getStripeClients env).1 !! name
     = (fun secret => NewStripe secret "2023-08-16")
       <$> resolved_secret env name)
  ∧ (∀ name,
       is_Some (own (getStripeClients env).1 !! name)
       ↔ ∃ key value, (key, value) ∈ env ∧ qualifies (key, value) = true
                      ∧ account_of key = name)
  ∧ (forallb (fun variable => negb (qualifies variable)) env = true →
     own (getStripeClients env).1 = ∅ ∧ (getStripeClients env).2 = []).
Proof.
  intros Hnd Hproto.
  assert (Hlookup : ∀ name,
            own (getStripeClients env).1 !! name
            = (fun secret => NewStripe secret "2023-08-16")
              <$> resolved_secret env name).
  { intros name. unfold getStripeClients. simpl.
    rewrite fold_env_callback by (intros k v; by apply env_get_elem_of).
    by apply fold_variable_callback_lookup. }
  split; [exact Hlookup | split].
  - intros name. rewrite Hlookup, fmap_is_Some. unfold resolved_secret.
    rewrite fmap_is_Some. split.
    + intros [[key value] Hfind]. apply find_some in Hfind as [Hin Hp].
      apply andb_true_iff in Hp as [Hq Hname]. apply String.eqb_eq in Hname.
      exists key, value. rewrite <- in_rev in Hin.
      split; [by apply list_elem_of_In | done].
    + intros (key & value & Hin & Hq & Hname).
      destruct (List.find _ (rev env)) as [found |] eqn:Hfind; [by eexists |].
      exfalso. apply list_elem_of_In in Hin. rewrite in_rev in Hin.
      pose proof (find_none _ _ Hfind _ Hin) as Hnone. simpl in Hnone.
      rewrite Hq, Hname, String.eqb_refl in Hnone. discriminate.
  - intros Hnone.
    assert (Hempty : own (getStripeClients env).1 = ∅).
    { apply map_eq. intros name. rewrite Hlookup, lookup_empty.
      unfold resolved_secret.
      destruct (List.find _ (rev env)) as [found |] eqn:Hfind; [| done].
      apply find_some in Hfind as [Hin Hp].
      apply andb_true_iff in Hp as [Hq _]. rewrite <- in_rev in Hin.
      rewrite forallb_forall in Hnone. specialize (Hnone _ Hin).
      by rewrite Hq in Hnone. }
    split; [done |].
    unfold getStripeClients in *. simpl in *. rewrite Hempty.
    by rewrite map_to_list_empty.
Qed.

Lemma credentials_are_the_last_matching_variables_witness :
  (∀ name,
     own (getStripeClients sample_env).1 !! name
     = (fun secret => NewStripe secret "2023-08-16")
       <$> resolved_secret sample_env name)
  ∧ (∀ name,
       is_Some (own (getStripeClients sample_env).1 !! name)
       ↔ ∃ key value, (key, value) ∈ sample_env ∧ qualifies (key, value) = true
                      ∧ account_of key = name)
  ∧ (forallb (fun variable => negb (qualifies variable)) sample_env = true →
     own (getStripeClients sample_env).1 = ∅
     ∧ (getStripeClients sample_env).2 = []).
Proof.
  apply (credentials_are_the_last_matching_variables sample_env).
  - apply (bool_decide_unpack _). vm_compute. exact I.
  - reflexivity.
Defined.

(** C9, as stated, fails: of two variables whose names differ only in
    letter case, the earlier one has no entry with its value. *)
Lemma colliding_names_keep_one_credential :
  NoDup colliding_env.*1
  ∧ ("STRIPE_TOKEN_A", "sk_live_1") ∈ colliding_env
  ∧ qualifies ("STRIPE_TOKEN_A", "sk_live_1") = true
  ∧ account_of "STRIPE_TOKEN_A" = "a"
  ∧ own (getStripeClients colliding_env).1 !! "a"
    = Some (NewStripe "sk_live_2" "2023-08-16")
  ∧ own (getStripeClients colliding_env).1 !! "a"
    ≠ Some (NewStripe "sk_live_1" "2023-08-16").
Proof.
  assert (Hlookup : own (getStripeClients colliding_env).1 !! "a"
                    = Some (NewStripe "sk_live_2" "2023-08-16"))
    by (vm_compute; reflexivity).
  split; [apply (bool_decide_unpack _); vm_compute; exact I |].
  split; [apply elem_of_cons; by left |].
  split; [reflexivity |]. split; [reflexivity |].
  split; [exact Hlookup |]. rewrite Hlookup. discriminate.
Qed.

(** ** Exit statuses *)


Section ExitStatuses.

Variable formatPeriod : option Period → result string.
Variable ledger : StripeClient → result (list RawTransaction).
Variable getProperties : result JsValue.
Variable op_read_parse : string → result string.
Variable getStripeClient : string → StripeClient.
Variable run_action : string → StripeClient → string → Period → JsValue
                      → result unit.

(** A prompt that rejects with the force-close message ends either
    tool with status 0, once credentials were found. *)
Lemma main_force_closed (env : Environment) (e : JsError) (st : State) :
  (length (getStripeClients env).2 <? 1)%nat = false →
  force_closed e = true →
  exit_status (main formatPeriod ledger env (PromptRejected e) st) = 0.
Proof.
  intros Hacc He. unfold main.
  destruct (getStripeClients env) as [clients accounts]. simpl in Hacc.
  rewrite Hacc. simpl. by rewrite He.
Qed.

Lemma tools_main_force_closed (stripeTokens : gmap string string)
    (config : JsValue) (e : JsError) :
  getProperties = Ok config →
  (size stripeTokens <? 1)%nat = false →
  force_closed e = true →
  exit_status (tools_main formatPeriod getProperties op_read_parse
                 getStripeClient run_action stripeTokens (PromptRejected e))
  = 0.
Proof.
  intros Hc Hsize He. unfold tools_main. rewrite Hc, Hsize. simpl.
  by rewrite He.
Qed.

(** The extended tool guards the answers: a prompt that resolves with an
    answer missing ends it with status 0. *)
Lemma tools_main_missing_answer (stripeTokens : gmap string string)
    (config : JsValue) (responses : Responses) :
  getProperties = Ok config →
  (size stripeTokens <? 1)%nat = false →
  account responses = None ∨ period responses = None
  ∨ action responses = None →
  exit_status (tools_main formatPeriod getProperties op_read_parse
                 getStripeClient run_action stripeTokens
                 (PromptResolved responses))
  = 0.
Proof.
  intros Hc Hsize Hmissing. unfold tools_main. rewrite Hc, Hsize.
  destruct (account responses), (period responses), (action responses);
    try reflexivity.
  by destruct Hmissing as [? | [? | ?]].
Qed.

(** C8. The reporting script has no such guard: when the prompt resolves
    without a period (the account or the period question was
    interrupted), [main] goes on, throws a TypeError on the missing
    answer, and the process ends with status 1. *)
Theorem main_missing_answer_exits_1 (env : Environment)
    (responses : Responses) (st : State) :
  period responses = None →
  (∀ e, formatPeriod None = Throw e → force_closed e = false) →
  exit_status (main formatPeriod ledger env (PromptResolved responses) st)
  = 1.
Proof.
  intros Hperiod Hformat. unfold main.
  destruct (getStripeClients env) as [clients accounts].
  destruct (length accounts <? 1)%nat; [reflexivity |].
  rewrite Hperiod.
  destruct (formatPeriod None) as [text | e] eqn:Hf.
  - by destruct (get_client clients (account responses)).
  - simpl. by rewrite (Hformat e eq_refl).
Qed.

End ExitStatuses.

(** The reporting script on a ledger that holds a charge with a
    payment_method_passthrough_fee line item: the TypeError of the loop
    reaches the handler and the process ends with status 1. *)
Example passthrough_fee_charge_exits_1 :
  exit_status
    (main (fun _ => Ok "November 2023")
       (fun _ => Ok [sample_transaction "charge" "available" 1000 950 50
                       [sample_fee "stripe_fee" 30;
                        sample_fee "payment_method_passthrough_fee" 20]])
       sample_env
       (PromptResolved
          {| account := Some "acme";
             period := Some {| period_start := NewDate 1698793200000;
                               period_end := NewDate 1701385200000 |};
             action := None |})
       blank_state)
  = 1.
Proof. vm_compute. reflexivity. Qed.

Lemma main_missing_answer_exits_1_witness :
  exit_status
    (main (fun _ => Throw (TypeError
             "Cannot read properties of undefined (reading 'start')"))
       (fun _ => Ok [])
       sample_env
       (PromptResolved {| account := None; period := None; action := None |})
       blank_state)
  = 1.
Proof.
  apply (main_missing_answer_exits_1
           (fun _ => Throw (TypeError
              "Cannot read properties of undefined (reading 'start')"))
           (fun _ => Ok [])
           sample_env
           {| account := None; period := None; action := None |}
           blank_state).
  - reflexivity.
  - intros e [= <-]. reflexivity.
Defined.

(** ** The loop as a summary of its input *)

Lemma sum_of_app {A : Type} (f : A → Z) (l1 l2 : list A) :
  sum_of f (l1 ++ l2) = sum_of f l1 + sum_of f l2.
Proof. induction l1 as [| x l1 IH]; simpl; lia. Qed.

Lemma sum_of_map {A B : Type} (f : B → Z) (g : A → B) (l : list A) :
  sum_of f (map g l) = sum_of (fun x => f (g x)) l.
Proof. induction l as [| x l IH]; simpl; [done | by rewrite IH]. Qed.

Lemma sum_of_flat_map {A B : Type} (f : B → Z) (g : A → list B) (l : list A) :
  sum_of f (flat_map g l) = sum_of (fun x => sum_of f (g x)) l.
Proof.
  induction l as [| x l IH]; simpl; [done |]. by rewrite sum_of_app, IH.
Qed.

(** Equalities of totals, field by field. *)
Ltac totals_fields :=
  unfold totals_plus, ledger_totals, add_pending_transactions,
    add_payouts_gross, add_payouts_net, add_payouts_fees, add_stripe_fees,
    add_charge_tax_fees, add_charge_application_fees, add_charge_stripe_fees,
    add_charge_fees, add_charge_gross, add_charge_net, sum_of;
  simpl; f_equal; lia.

Lemma ledger_totals_app (l1 l2 : list RawTransaction) :
  ledger_totals (l1 ++ l2)
  = totals_plus (ledger_totals l1) (ledger_totals l2).
Proof.
  unfold ledger_totals, totals_plus. cbn [pending_transactions payouts_gross
    payouts_net payouts_fees stripe_fees charge_gross charge_net charge_fees
    charge_stripe_fees charge_application_fees charge_tax_fees].
  rewrite !List.filter_app, !sum_of_app, length_app, Nat2Z.inj_add. reflexivity.
Qed.

Lemma totals_plus_assoc (a b c : Totals) :
  totals_plus (totals_plus a b) c = totals_plus a (totals_plus b c).
Proof. unfold totals_plus. simpl. f_equal; lia. Qed.

Lemma summarises_nil (st : State) : summarises [] st st.
Proof.
  unfold summarises. simpl. rewrite !app_nil_r.
  repeat split; try reflexivity.
  - intros key. destruct (taxesAndFees st !! key); simpl; [| done].
    by rewrite app_nil_r.
  - destruct (totals st). unfold totals_plus. simpl. f_equal; lia.
Qed.

Lemma summarises_app (l1 l2 : list RawTransaction) (st st1 st2 : State) :
  summarises l1 st st1 → summarises l2 st1 st2 → summarises (l1 ++ l2) st st2.
Proof.
  intros (Htx1 & Hp1 & Hc1 & Hl1 & Hb1 & Ht1) (Htx2 & Hp2 & Hc2 & Hl2 & Hb2 & Ht2).
  unfold summarises. rewrite !List.filter_app, !map_app, !app_assoc.
  rewrite Htx2, Htx1, Hp2, Hp1, Hc2, Hc1, Hl2, Hl1.
  repeat split; try reflexivity.
  - intros key. rewrite Hb2, Hb1.
    destruct (taxesAndFees st !! key); simpl; [| done].
    by rewrite flat_map_app, app_assoc.
  - by rewrite Ht2, Ht1, ledger_totals_app, totals_plus_assoc.
Qed.

(** Rewrites the tests of a one-element summary with the facts at hand,
    then leaves list and arithmetic goals. *)
Ltac one_transaction Hpend Hproc Hun Hsf Hpay Hch :=
  unfold summarises, ledger_totals; cbn [List.filter];
  rewrite ?Hpend, ?Hproc, ?Hun, ?Hsf, ?Hpay, ?Hch;
  cbn [map flat_map length app];
  repeat split;
  first
    [ simpl; rewrite ?app_nil_r; reflexivity
    | intros key; simpl;
      match goal with
      | |- context [taxesAndFees ?s !! key] =>
          destruct (taxesAndFees s !! key); simpl; rewrite ?app_nil_r; done
      end
    | simpl;
      match goal with
      | |- context [totals ?s] => destruct (totals s)
      end; totals_fields ].

Lemma loop_body_summarises (transaction : RawTransaction) (st : State) :
  has_buckets (taxesAndFees st) →
  aborts transaction = false →
  ∃ st',
    loop_body transaction st = Ok st'
    ∧ has_buckets (taxesAndFees st')
    ∧ summarises [transaction] st st'.
Proof.
  intros Hm Hab. unfold aborts in Hab.
  destruct (String.eqb (tx_status transaction) "pending") eqn:Hp.
  { (* counted as pending *)
    pose proof Hp as Hs. apply String.eqb_eq in Hs.
    assert (Hpend : is_pending transaction = true) by exact Hp.
    assert (Hproc : processed transaction = false)
      by (unfold processed; by rewrite Hs).
    assert (Hun : unrecognized transaction = false)
      by (unfold unrecognized; by rewrite Hpend).
    assert (Hty : ∀ type, of_type type transaction = false)
      by (intros type; unfold of_type; by rewrite Hproc).
    exists (set_totals (add_pending_transactions 1) st).
    split; [by apply pending_transaction_is_counted |]. split; [done |].
    one_transaction Hpend Hproc Hun (Hty "stripe_fee") (Hty "payout")
      (Hty "charge"). }
  assert (Hpend : is_pending transaction = false) by exact Hp.
  destruct (processed transaction) eqn:Hproc.
  - (* past the guards *)
    assert (Hun : unrecognized transaction = false)
      by (unfold unrecognized; by rewrite Hproc, andb_false_r).
    pose proof Hproc as [Hs Hk]%andb_true_iff.
    apply String.eqb_eq in Hs. apply includes_true in Hk.
    unfold knownTransactionTypes in Hk.
    rewrite !elem_of_cons, elem_of_nil in Hk.
    destruct Hk as [Ht | [Ht | [Ht | []]]].
    + (* charge *)
      rewrite Ht in Hab. simpl in Hab. apply negb_false_iff in Hab.
      assert (Hsf : of_type "stripe_fee" transaction = false)
        by (unfold of_type; by rewrite Hproc, Ht).
      assert (Hpay : of_type "payout" transaction = false)
        by (unfold of_type; by rewrite Hproc, Ht).
      assert (Hch : of_type "charge" transaction = true)
        by (unfold of_type; by rewrite Hproc, Ht).
      eexists. split.
      { rewrite (loop_body_charge _ _ Hs Ht).
        rewrite (forEach_fee_callback_bucketed _ _ _ Hm Hab). reflexivity. }
      split; [by apply fold_route_fee_has_buckets |].
      pose proof (fold_route_fee_totals transaction
                    (tx_fee_details transaction) st) as Htot.
      pose proof (fold_route_fee_frame transaction
                    (tx_fee_details transaction) st) as (Hfp & Hftx & Hfc & Hfl).
      unfold summarises, ledger_totals. cbn [List.filter].
      rewrite Hpend, Hproc, Hun, Hsf, Hpay, Hch.
      cbn [map flat_map length app]. simpl.
      rewrite Htot, Hfp, Hftx, Hfc, Hfl, !app_nil_r.
      repeat split; try reflexivity.
      * intros key. rewrite fold_route_fee_buckets.
        destruct (taxesAndFees st !! key); simpl; [| done].
        by rewrite app_nil_r.
      * destruct (totals st). totals_fields.
    + (* payout *)
      assert (Hsf : of_type "stripe_fee" transaction = false)
        by (unfold of_type; by rewrite Hproc, Ht).
      assert (Hpay : of_type "payout" transaction = true)
        by (unfold of_type; by rewrite Hproc, Ht).
      assert (Hch : of_type "charge" transaction = false)
        by (unfold of_type; by rewrite Hproc, Ht).
      eexists. split; [by apply loop_body_payout |]. split; [done |].
      one_transaction Hpend Hproc Hun Hsf Hpay Hch.
    + (* stripe_fee *)
      assert (Hsf : of_type "stripe_fee" transaction = true)
        by (unfold of_type; by rewrite Hproc, Ht).
      assert (Hpay : of_type "payout" transaction = false)
        by (unfold of_type; by rewrite Hproc, Ht).
      assert (Hch : of_type "charge" transaction = false)
        by (unfold of_type; by rewrite Hproc, Ht).
      eexists. split; [by apply loop_body_stripe_fee |]. split; [done |].
      one_transaction Hpend Hproc Hun Hsf Hpay Hch.
  - (* logged and skipped *)
    assert (Hun : unrecognized transaction = true)
      by (unfold unrecognized; by rewrite Hpend, Hproc).
    assert (Hty : ∀ type, of_type type transaction = false)
      by (intros type; unfold of_type; by rewrite Hproc).
    exists (set_console (push (log_line transaction)) st).
    split; [| split; [done |]].
    + unfold loop_body, log_line. rewrite Hp. unfold processed in Hproc.
      destruct (String.eqb (tx_status transaction) "available"); simpl in *;
        [by rewrite Hproc | done].
    + one_transaction Hpend Hproc Hun (Hty "stripe_fee") (Hty "payout")
        (Hty "charge").
Qed.

Lemma for_await_summarises (listed : list RawTransaction) (st : State) :
  has_buckets (taxesAndFees st) →
  forallb (fun transaction => negb (aborts transaction)) listed = true →
  ∃ st',
    for_await listed st = Ok st'
    ∧ has_buckets (taxesAndFees st')
    ∧ summarises listed st st'.
Proof.
  revert st. induction listed as [| transaction rest IH]; intros st Hm Hall.
  - exists st. split; [done |]. split; [done | apply summarises_nil].
  - simpl in Hall. apply andb_true_iff in Hall as [Hab Hrest].
    apply negb_true_iff in Hab.
    destruct (loop_body_summarises transaction st Hm Hab)
      as (st1 & Hbody & Hm1 & Hsum1).
    destruct (IH st1 Hm1 Hrest) as (st' & Hloop & Hm' & Hsum').
    exists st'. split; [| split; [done |]].
    + unfold for_await in *. simpl. by rewrite Hbody.
    + exact (summarises_app [transaction] rest st st1 st' Hsum1 Hsum').
Qed.

Lemma classification_pass_summarises (listed : list RawTransaction) (st : State) :
  forallb (fun transaction => negb (aborts transaction)) listed = true →
  ∃ st',
    classification_pass listed st = Ok st'
    ∧ has_buckets (taxesAndFees st')
    ∧ summarises listed (declare_locals st) st'.
Proof.
  intros Hall.
  exact (for_await_summarises listed (declare_locals st)
           (has_buckets_declare_locals st) Hall).
Qed.

Lemma fee_callback_unbucketed_error (transaction : RawTransaction)
    (fee : FeeDetail) (st : State) :
  has_buckets (taxesAndFees st) →
  includes bucket_names (fee_type fee) = false →
  ∃ e, fee_callback transaction fee st = Throw e ∧ force_closed e = false.
Proof.
  intros Hm Hk. unfold fee_callback, push_fee. simpl.
  rewrite (has_buckets_lookup_None _ _ Hm Hk).
  destruct (includes object_prototype_members (fee_type fee));
    eexists; split; reflexivity.
Qed.

Lemma loop_body_aborts (transaction : RawTransaction) (st : State) :
  has_buckets (taxesAndFees st) →
  aborts transaction = true →
  ∃ e, loop_body transaction st = Throw e ∧ force_closed e = false.
Proof.
  intros Hm Hab. unfold aborts in Hab.
  apply andb_true_iff in Hab as [[Hproc Ht]%andb_true_iff Htags].
  apply negb_true_iff in Htags. apply String.eqb_eq in Ht.
  pose proof Hproc as [Hs _]%andb_true_iff. apply String.eqb_eq in Hs.
  rewrite (loop_body_charge _ _ Hs Ht).
  revert st Hm Htags.
  induction (tx_fee_details transaction) as [| fee rest IH]; intros st Hm Htags;
    [done |].
  simpl in Htags. simpl.
  destruct (includes bucket_names (fee_type fee)) eqn:Hfee.
  - rewrite (fee_callback_bucketed _ _ _ Hm Hfee). simpl.
    apply IH; [by apply route_fee_has_buckets | done].
  - destruct (fee_callback_unbucketed_error transaction fee st Hm Hfee)
      as (e & -> & He).
    by exists e.
Qed.

Lemma for_await_aborts (listed : list RawTransaction) (st : State) :
  has_buckets (taxesAndFees st) →
  forallb (fun transaction => negb (aborts transaction)) listed = false →
  ∃ e, for_await listed st = Throw e ∧ force_closed e = false.
Proof.
  revert st. induction listed as [| transaction rest IH]; intros st Hm Hall;
    [done |].
  simpl in Hall. unfold for_await in *. simpl.
  destruct (aborts transaction) eqn:Hab.
  - destruct (loop_body_aborts transaction st Hm Hab) as (e & -> & He).
    by exists e.
  - destruct (loop_body_summarises transaction st Hm Hab)
      as (st1 & -> & Hm1 & _).
    simpl. by apply IH.
Qed.

(** X1. The pass returns exactly when no transaction of its input is an
    available charge with a fee tag outside the three buckets; otherwise
    it throws, and the error is not the force-close error of the prompt. *)
Theorem pass_returns_unless_a_charge_aborts
    (listed : list RawTransaction) (st : State) :
  if forallb (fun transaction => negb (aborts transaction)) listed then
    ∃ st', classification_pass listed st = Ok st'
  else
    ∃ e, classification_pass listed st = Throw e ∧ force_closed e = false.
Proof.
  destruct (forallb _ listed) eqn:Hall.
  - destruct (classification_pass_summarises listed st Hall) as (st' & Hrun & _).
    by exists st'.
  - exact (for_await_aborts listed (declare_locals st)
             (has_buckets_declare_locals st) Hall).
Qed.

(** ** What a completed pass reports *)

Lemma sum_of_negated {A : Type} (f : A → Z) (l : list A) :
  sum_of (fun x => f x * -1) l = - sum_of f l.
Proof. induction l as [| x l IH]; simpl; lia. Qed.

Lemma sum_of_ext_in {A : Type} (f g : A → Z) (l : list A) :
  (∀ x, In x l → f x = g x) → sum_of f l = sum_of g l.
Proof.
  induction l as [| x l IH]; intros Hfg; simpl; [done |].
  rewrite (Hfg x) by (by left). rewrite IH; [done |].
  intros y Hy. apply Hfg. by right.
Qed.

Lemma filter_filter {A : Type} (p q : A → bool) (l : list A) :
  List.filter p (List.filter q l) = List.filter (fun x => q x && p x) l.
Proof.
  induction l as [| x l IH]; simpl; [done |].
  destruct (q x); simpl; [| done]. destruct (p x); by rewrite IH.
Qed.

(** X2. After a completed pass the pending counter is the number of
    pending transactions of the input. *)
Theorem pending_counter_counts_pending
    (listed : list RawTransaction) (st : State) :
  forallb (fun transaction => negb (aborts transaction)) listed = true →
  ∃ st',
    classification_pass listed st = Ok st'
    ∧ pending_transactions (totals st')
      = Z.of_nat (length (List.filter is_pending listed)).
Proof.
  intros Hall.
  destruct (classification_pass_summarises listed st Hall)
    as (st' & Hrun & _ & _ & _ & _ & _ & _ & Htot).
  exists st'. split; [done |]. by rewrite Htot.
Qed.

Lemma pending_counter_counts_pending_witness :
  ∃ st',
    classification_pass sample_ledger blank_state = Ok st'
    ∧ pending_transactions (totals st')
      = Z.of_nat (length (List.filter is_pending sample_ledger)).
Proof.
  apply (pending_counter_counts_pending sample_ledger blank_state).
  reflexivity.
Defined.

(** X3. After a completed pass the stripe-fees total is the negated sum of
    the amounts of the available stripe_fee transactions of the input. *)
Theorem stripe_fees_total_is_negated_sum
    (listed : list RawTransaction) (st : State) :
  forallb (fun transaction => negb (aborts transaction)) listed = true →
  ∃ st',
    classification_pass listed st = Ok st'
    ∧ stripe_fees (totals st')
      = - sum_of tx_amount (List.filter (of_type "stripe_fee") listed).
Proof.
  intros Hall.
  destruct (classification_pass_summarises listed st Hall)
    as (st' & Hrun & _ & _ & _ & _ & _ & _ & Htot).
  exists st'. split; [done |]. rewrite Htot. simpl.
  by rewrite sum_of_negated.
Qed.

Lemma stripe_fees_total_is_negated_sum_witness :
  ∃ st',
    classification_pass sample_ledger blank_state = Ok st'
    ∧ stripe_fees (totals st')
      = - sum_of tx_amount (List.filter (of_type "stripe_fee") sample_ledger).
Proof.
  apply (stripe_fees_total_is_negated_sum sample_ledger blank_state).
  reflexivity.
Defined.

(** X4. After a completed pass the payout records are the records of the
    payouts of the audit list, in order, and the payout totals agree with
    them: gross is the negated sum of their amounts, fees the sum of their
    fees. *)
Theorem payout_records_match_totals
    (listed : list RawTransaction) (st : State) :
  forallb (fun transaction => negb (aborts transaction)) listed = true →
  ∃ st',
    classification_pass listed st = Ok st'
    ∧ payouts st'
      = map payout_record
          (List.filter (fun t => String.eqb (tx_type t) "payout")
             (transactions st'))
    ∧ payouts_gross (totals st') = - sum_of payout_amount (payouts st')
    ∧ payouts_fees (totals st') = sum_of payout_fee (payouts st').
Proof.
  intros Hall.
  destruct (classification_pass_summarises listed st Hall)
    as (st' & Hrun & _ & Htx & Hp & _ & _ & _ & Htot).
  exists st'. split; [done |].
  simpl in Htx, Hp. rewrite Htx, Hp, Htot, filter_filter, !sum_of_map. simpl.
  by rewrite sum_of_negated.
Qed.

Lemma payout_records_match_totals_witness :
  ∃ st',
    classification_pass sample_ledger blank_state = Ok st'
    ∧ payouts st'
      = map payout_record
          (List.filter (fun t => String.eqb (tx_type t) "payout")
             (transactions st'))
    ∧ payouts_gross (totals st') = - sum_of payout_amount (payouts st')
    ∧ payouts_fees (totals st') = sum_of payout_fee (payouts st').
Proof.
  apply (payout_records_match_totals sample_ledger blank_state).
  reflexivity.
Defined.

(** X5. After a completed pass the charge records are the records of the
    charges of the audit list, in order, and the charge totals agree with
    them: gross is the sum of their amounts, fees the sum of their fees. *)
Theorem charge_records_match_totals
    (listed : list RawTransaction) (st : State) :
  forallb (fun transaction => negb (aborts transaction)) listed = true →
  ∃ st',
    classification_pass listed st = Ok st'
    ∧ charges st'
      = map charge_record
          (List.filter (fun t => String.eqb (tx_type t) "charge")
             (transactions st'))
    ∧ charge_gross (totals st') = sum_of charge_amount (charges st')
    ∧ charge_fees (totals st') = sum_of charge_fee (charges st').
Proof.
  intros Hall.
  destruct (classification_pass_summarises listed st Hall)
    as (st' & Hrun & _ & Htx & _ & Hc & _ & _ & Htot).
  exists st'. split; [done |].
  simpl in Htx, Hc. by rewrite Htx, Hc, Htot, filter_filter, !sum_of_map.
Qed.

Lemma charge_records_match_totals_witness :
  ∃ st',
    classification_pass sample_ledger blank_state = Ok st'
    ∧ charges st'
      = map charge_record
          (List.filter (fun t => String.eqb (tx_type t) "charge")
             (transactions st'))
    ∧ charge_gross (totals st') = sum_of charge_amount (charges st')
    ∧ charge_fees (totals st') = sum_of charge_fee (charges st').
Proof.
  apply (charge_records_match_totals sample_ledger blank_state).
  reflexivity.
Defined.

Lemma fresh_taxesAndFees_lookup (key : string) :
  fresh_taxesAndFees !! key
  = if includes bucket_names key then Some [] else None.
Proof.
  destruct (includes bucket_names key) eqn:Hk.
  - apply includes_true in Hk. unfold bucket_names in Hk.
    rewrite !elem_of_cons, elem_of_nil in Hk.
    destruct Hk as [-> | [-> | [-> | []]]]; vm_compute; reflexivity.
  - by apply has_buckets_lookup_None; [apply has_buckets_fresh |].
Qed.

Lemma sum_of_line_items (key : string) (transaction : RawTransaction) :
  sum_of item_amount (line_items key transaction)
  = sum_amounts (tagged key (tx_fee_details transaction)).
Proof. unfold line_items. by rewrite sum_of_map. Qed.

Lemma charged_tags_bucketed (listed : list RawTransaction)
    (transaction : RawTransaction) :
  forallb (fun t => negb (aborts t)) listed = true →
  In transaction (List.filter (of_type "charge") listed) →
  tags_bucketed (tx_fee_details transaction) = true.
Proof.
  intros Hall [Hin Hch]%filter_In.
  rewrite forallb_forall in Hall. specialize (Hall _ Hin).
  unfold aborts in Hall. unfold of_type in Hch. rewrite Hch in Hall.
  simpl in Hall. by destruct (tags_bucketed (tx_fee_details transaction)).
Qed.

(** X6. After a completed pass each of the three buckets holds, in input
    order, the line items of the available charges whose tag is the name
    of the bucket, and [taxesAndFees] has no other key. *)
Theorem buckets_hold_the_tagged_line_items
    (listed : list RawTransaction) (st : State) :
  forallb (fun transaction => negb (aborts transaction)) listed = true →
  ∃ st',
    classification_pass listed st = Ok st'
    ∧ ∀ key,
        taxesAndFees st' !! key
        = if includes bucket_names key then
            Some (flat_map (line_items key)
                    (List.filter (of_type "charge") listed))
          else None.
Proof.
  intros Hall.
  destruct (classification_pass_summarises listed st Hall)
    as (st' & Hrun & _ & _ & _ & _ & _ & Hb & _).
  exists st'. split; [done |]. intros key. rewrite Hb. simpl.
  rewrite fresh_taxesAndFees_lookup.
  by destruct (includes bucket_names key).
Qed.

Lemma buckets_hold_the_tagged_line_items_witness :
  ∃ st',
    classification_pass sample_ledger blank_state = Ok st'
    ∧ ∀ key,
        taxesAndFees st' !! key
        = if includes bucket_names key then
            Some (flat_map (line_items key)
                    (List.filter (of_type "charge") sample_ledger))
          else None.
Proof.
  apply (buckets_hold_the_tagged_line_items sample_ledger blank_state).
  reflexivity.
Defined.

(** X7. After a completed pass each charge fee total is the sum of the
    amounts of the line items in the bucket of its kind: stripe fees for
    the stripe_fee bucket, application fees for application_fee, tax fees
    for tax. *)
Theorem fee_totals_are_bucket_sums
    (listed : list RawTransaction) (st : State) :
  forallb (fun transaction => negb (aborts transaction)) listed = true →
  ∃ st' stripe application tax,
    classification_pass listed st = Ok st'
    ∧ taxesAndFees st' !! "stripe_fee" = Some stripe
    ∧ taxesAndFees st' !! "application_fee" = Some application
    ∧ taxesAndFees st' !! "tax" = Some tax
    ∧ charge_stripe_fees (totals st') = sum_of item_amount stripe
    ∧ charge_application_fees (totals st') = sum_of item_amount application
    ∧ charge_tax_fees (totals st') = sum_of item_amount tax.
Proof.
  intros Hall.
  destruct (classification_pass_summarises listed st Hall)
    as (st' & Hrun & _ & _ & _ & _ & _ & Hb & Htot).
  exists st'. do 3 eexists. split; [done |].
  rewrite !Hb. simpl. rewrite !fresh_taxesAndFees_lookup. simpl.
  do 3 (split; [reflexivity |]).
  rewrite Htot, !sum_of_flat_map. simpl.
  repeat split; apply sum_of_ext_in; intros t Ht;
    rewrite sum_of_line_items; [done | done |].
  by rewrite (tax_share_bucketed _ (charged_tags_bucketed listed t Hall Ht)).
Qed.

Lemma fee_totals_are_bucket_sums_witness :
  ∃ st' stripe application tax,
    classification_pass sample_ledger blank_state = Ok st'
    ∧ taxesAndFees st' !! "stripe_fee" = Some stripe
    ∧ taxesAndFees st' !! "application_fee" = Some application
    ∧ taxesAndFees st' !! "tax" = Some tax
    ∧ charge_stripe_fees (totals st') = sum_of item_amount stripe
    ∧ charge_application_fees (totals st') = sum_of item_amount application
    ∧ charge_tax_fees (totals st') = sum_of item_amount tax.
Proof.
  apply (fee_totals_are_bucket_sums sample_ledger blank_state).
  reflexivity.
Defined.

(** X8. A completed pass writes one line to the terminal for every
    transaction that is neither pending nor processed, in input order: the
    raw transaction for an unrecognized status, the warning with type and
    id for an unrecognized type; it writes nothing else. *)
Theorem one_line_per_unrecognized_transaction
    (listed : list RawTransaction) (st : State) :
  forallb (fun transaction => negb (aborts transaction)) listed = true →
  ∃ st',
    classification_pass listed st = Ok st'
    ∧ console st'
      = (console st ++ map log_line (List.filter unrecognized listed))%list.
Proof.
  intros Hall.
  destruct (classification_pass_summarises listed st Hall)
    as (st' & Hrun & _ & _ & _ & _ & Hl & _).
  by exists st'.
Qed.

Lemma one_line_per_unrecognized_transaction_witness :
  ∃ st',
    classification_pass sample_ledger blank_state = Ok st'
    ∧ console st'
      = (console blank_state
         ++ map log_line (List.filter unrecognized sample_ledger))%list.
Proof.
  apply (one_line_per_unrecognized_transaction sample_ledger blank_state).
  reflexivity.
Defined.

(** ** Transactions the report does not depend on *)

Lemma loop_body_unrecognized (transaction : RawTransaction) (st : State) :
  unrecognized transaction = true →
  loop_body transaction st
  = Ok (set_console (push (log_line transaction)) st).
Proof.
  unfold unrecognized, is_pending, processed, loop_body, log_line.
  intros [Hp Hproc]%andb_true_iff.
  apply negb_true_iff in Hp. apply negb_true_iff in Hproc. rewrite Hp.
  destruct (String.eqb (tx_status transaction) "available"); simpl in *;
    [by rewrite Hproc | done].
Qed.

Lemma for_await_erase_eq (listed : list RawTransaction) (st1 st2 : State) :
  erase st1 = erase st2 →
  erase <$> for_await listed st1 = erase <$> for_await listed st2.
Proof.
  intros He.
  by rewrite <- (for_await_erase listed st1), <- (for_await_erase listed st2), He.
Qed.

Lemma for_await_without_unrecognized (listed : list RawTransaction) (st : State) :
  erase <$> for_await listed st
  = erase <$> for_await
                (List.filter (fun t => negb (unrecognized t)) listed) st.
Proof.
  revert st. induction listed as [| transaction rest IH]; intros st; [done |].
  simpl. destruct (unrecognized transaction) eqn:Hun; simpl.
  - unfold for_await at 1. simpl.
    rewrite (loop_body_unrecognized _ _ Hun). simpl.
    rewrite <- IH. by apply for_await_erase_eq.
  - unfold for_await in *. simpl.
    destruct (loop_body transaction st) as [st1 | e]; simpl; [apply IH | done].
Qed.

(** X9. Removing from the input every transaction that is neither pending
    nor processed changes nothing in what the pass reports: the same
    totals and collections, or the same error. *)
Theorem report_ignores_unrecognized_transactions
    (listed : list RawTransaction) (st : State) :
  outcome (classification_pass listed st)
  = outcome (classification_pass
               (List.filter (fun t => negb (unrecognized t)) listed) st).
Proof.
  unfold classification_pass.
  rewrite <- (outcome_erase (for_await listed (declare_locals st))).
  rewrite for_await_without_unrecognized.
  by rewrite outcome_erase.
Qed.

Lemma ledger_totals_cons (transaction : RawTransaction)
    (rest : list RawTransaction) :
  ledger_totals (transaction :: rest)
  = totals_plus (ledger_totals [transaction]) (ledger_totals rest).
Proof. exact (ledger_totals_app [transaction] rest). Qed.

Lemma totals_plus_swap (a b c : Totals) :
  totals_plus a (totals_plus b c) = totals_plus b (totals_plus a c).
Proof. unfold totals_plus. simpl. f_equal; lia. Qed.

Lemma ledger_totals_Permutation (l1 l2 : list RawTransaction) :
  Permutation l1 l2 → ledger_totals l1 = ledger_totals l2.
Proof.
  induction 1 as [| x l1 l2 _ IH | x y l | l1 l2 l3 _ IH1 _ IH2].
  - reflexivity.
  - by rewrite (ledger_totals_cons x l1), (ledger_totals_cons x l2), IH.
  - rewrite (ledger_totals_cons y (x :: l)), (ledger_totals_cons x l),
      (ledger_totals_cons x (y :: l)), (ledger_totals_cons y l).
    apply totals_plus_swap.
  - by rewrite IH1.
Qed.

Lemma forallb_Permutation {A : Type} (p : A → bool) (l1 l2 : list A) :
  Permutation l1 l2 → forallb p l1 = forallb p l2.
Proof.
  induction 1 as [| x l1 l2 _ IH | x y l | l1 l2 l3 _ IH1 _ IH2]; simpl.
  - reflexivity.
  - by rewrite IH.
  - by destruct (p x), (p y).
  - by rewrite IH1.
Qed.

(** X11. The totals of a completed pass do not depend on the order of the
    input: two inputs that are permutations of each other give the same
    totals. *)
Theorem totals_ignore_the_order (listed listed' : list RawTransaction)
    (st : State) :
  Permutation listed listed' →
  forallb (fun transaction => negb (aborts transaction)) listed = true →
  ∃ st1 st2,
    classification_pass listed st = Ok st1
    ∧ classification_pass listed' st = Ok st2
    ∧ totals st1 = totals st2.
Proof.
  intros Hperm Hall.
  pose proof Hall as Hall'.
  rewrite (forallb_Permutation _ _ _ Hperm) in Hall'.
  destruct (classification_pass_summarises listed st Hall)
    as (st1 & Hrun1 & _ & _ & _ & _ & _ & _ & Htot1).
  destruct (classification_pass_summarises listed' st Hall')
    as (st2 & Hrun2 & _ & _ & _ & _ & _ & _ & Htot2).
  exists st1, st2. split; [done |]. split; [done |].
  by rewrite Htot1, Htot2, (ledger_totals_Permutation _ _ Hperm).
Qed.

Lemma totals_ignore_the_order_witness :
  ∃ st1 st2,
    classification_pass sample_ledger blank_state = Ok st1
    ∧ classification_pass (rev sample_ledger) blank_state = Ok st2
    ∧ totals st1 = totals st2.
Proof.
  apply (totals_ignore_the_order sample_ledger (rev sample_ledger) blank_state).
  - apply Permutation_rev.
  - reflexivity.
Defined.

(** ** Periods that meet or are empty *)

Lemma listed_iff (period : Period) (entries : list RawTransaction)
    (transaction : RawTransaction) :
  In transaction (balanceTransactions_list entries (list_params period))
  ↔ In transaction entries
    ∧ valueOf (period_start period) <= tx_created transaction * 1000
    ∧ tx_created transaction * 1000 <= valueOf (period_end period).
Proof.
  unfold balanceTransactions_list.
  by rewrite filter_In, created_matches_closed.
Qed.

(** X12. When one period ends at the instant the next one starts, the
    entries yielded for both are exactly the entries created at that
    instant: such an entry is reported in both periods. *)
Theorem adjacent_periods_share_the_boundary (earlier later : Period)
    (entries : list RawTransaction) (transaction : RawTransaction) :
  period_end earlier = period_start later →
  valueOf (period_start earlier) <= valueOf (period_end earlier) →
  valueOf (period_start later) <= valueOf (period_end later) →
  In transaction (balanceTransactions_list entries (list_params earlier))
  ∧ In transaction (balanceTransactions_list entries (list_params later))
  ↔ In transaction entries
    ∧ tx_created transaction * 1000 = valueOf (period_end earlier).
Proof.
  intros Hmeet He Hl. rewrite !listed_iff, <- Hmeet in *. intuition lia.
Qed.

Lemma adjacent_periods_share_the_boundary_witness :
  let october := {| period_start := NewDate 1696111200000;
                    period_end := NewDate 1698793200000 |} in
  let november := {| period_start := NewDate 1698793200000;
                     period_end := NewDate 1701385200000 |} in
  let entry := {| tx_id := "txn_2"; tx_type := "charge";
                  tx_status := "available"; tx_amount := 1000; tx_net := 970;
                  tx_fee := 30; tx_currency := "eur";
                  tx_created := 1698793200; tx_available_on := 1699398000;
                  tx_source := sample_source; tx_fee_details := [] |} in
  In entry (balanceTransactions_list [entry] (list_params october))
  ∧ In entry (balanceTransactions_list [entry] (list_params november))
  ↔ In entry [entry] ∧ tx_created entry * 1000 = valueOf (period_end october).
Proof.
  intros october november entry.
  apply (adjacent_periods_share_the_boundary october november [entry] entry).
  - reflexivity.
  - simpl. lia.
  - simpl. lia.
Defined.

(** X13. A period that ends before it starts yields no entry. *)
Theorem inverted_period_lists_nothing (period : Period)
    (entries : list RawTransaction) :
  valueOf (period_end period) < valueOf (period_start period) →
  balanceTransactions_list entries (list_params period) = [].
Proof.
  intros Hinv.
  destruct (balanceTransactions_list entries (list_params period))
    as [| transaction rest] eqn:Hl; [done |].
  assert (Hin : In transaction
                  (balanceTransactions_list entries (list_params period)))
    by (rewrite Hl; by left).
  apply listed_iff in Hin. lia.
Qed.

Lemma inverted_period_lists_nothing_witness :
  balanceTransactions_list sample_ledger
    (list_params {| period_start := NewDate 1701385200000;
                    period_end := NewDate 1698793200000 |}) = [].
Proof.
  apply (inverted_period_lists_nothing
           {| period_start := NewDate 1701385200000;
              period_end := NewDate 1698793200000 |} sample_ledger).
  simpl. lia.
Defined.

(** ** Entries of the credential map *)

Lemma env_get_Some_elem (env : Environment) (key value : string) :
  env_get env key = Some value → key ∈ env.*1.
Proof.
  induction env as [| [k v] rest IH]; simpl; [done |].
  destruct (String.eqb k key) eqn:Hk.
  - apply String.eqb_eq in Hk. subst k. intros _. by left.
  - intros Hget. right. by apply IH.
Qed.

Lemma env_callback_from_variable (env : Environment) (clients : ClientsObject)
    (key : string) :
  (∀ name client, own clients !! name = Some client →
                  from_variable env name client) →
  ∀ name client,
    own (env_callback env clients key) !! name = Some client →
    from_variable env name client.
Proof.
  intros Hinv name client. unfold env_callback.
  destruct (startsWith key "STRIPE_TOKEN_") eqn:Hpre; [| apply Hinv].
  destruct (env_get env key) as [secret |] eqn:Hget; [| apply Hinv].
  unfold falsy.
  destruct (String.eqb secret EmptyString) eqn:Hsecret; [apply Hinv |].
  change (toLowerCase (slice 13 key)) with (account_of key).
  unfold set_property.
  destruct (String.eqb (account_of key) "__proto__") eqn:Hproto;
    cbn [own]; [apply Hinv |].
  destruct (decide (account_of key = name)) as [<- | Hne].
  - rewrite lookup_insert_eq. intros [= <-]. cbn [client_secret client_apiVersion].
    apply String.eqb_neq in Hproto, Hsecret.
    repeat split; try done.
    exists key. repeat split; try done. by eapply env_get_Some_elem.
  - rewrite lookup_insert_ne by done. apply Hinv.
Qed.

Lemma fold_env_callback_from_variable (env : Environment) (keys : list string)
    (clients : ClientsObject) :
  (∀ name client, own clients !! name = Some client →
                  from_variable env name client) →
  ∀ name client,
    own (fold_left (env_callback env) keys clients) !! name = Some client →
    from_variable env name client.
Proof.
  revert clients. induction keys as [| key rest IH]; intros clients Hinv;
    [done |].
  simpl. apply IH. by apply env_callback_from_variable.
Qed.

Lemma getStripeClients_from_variable (env : Environment) (name : string)
    (client : StripeClient) :
  own (getStripeClients env).1 !! name = Some client →
  from_variable env name client.
Proof.
  unfold getStripeClients. simpl.
  apply fold_env_callback_from_variable.
  intros n c. unfold empty_object. cbn [own]. by rewrite lookup_empty.
Qed.

(** X14. In every snapshot, whatever its names, each entry of the
    credential map was made from a variable of the snapshot that carries
    the prefix STRIPE_TOKEN_, has the entry's name as lowercased suffix
    and holds a non-empty value, which is the secret of the client; the
    client has the API version 2023-08-16, and no entry is named
    __proto__. *)
Theorem every_credential_comes_from_a_variable (env : Environment)
    (name : string) (client : StripeClient) :
  own (getStripeClients env).1 !! name = Some client →
  name ≠ "__proto__"
  ∧ client_apiVersion client = "2023-08-16"
  ∧ client_secret client ≠ EmptyString
  ∧ ∃ key,
      key ∈ env.*1
      ∧ startsWith key "STRIPE_TOKEN_" = true
      ∧ toLowerCase (slice 13 key) = name
      ∧ env_get env key = Some (client_secret client).
Proof. apply getStripeClients_from_variable. Qed.

Lemma every_credential_comes_from_a_variable_witness :
  "acme" ≠ "__proto__"
  ∧ client_apiVersion (NewStripe "sk_live_1" "2023-08-16") = "2023-08-16"
  ∧ client_secret (NewStripe "sk_live_1" "2023-08-16") ≠ EmptyString
  ∧ ∃ key,
      key ∈ sample_env.*1
      ∧ startsWith key "STRIPE_TOKEN_" = true
      ∧ toLowerCase (slice 13 key) = "acme"
      ∧ env_get sample_env key
        = Some (client_secret (NewStripe "sk_live_1" "2023-08-16")).
Proof.
  apply (every_credential_comes_from_a_variable sample_env "acme"
           (NewStripe "sk_live_1" "2023-08-16")).
  vm_compute. reflexivity.
Defined.

Lemma lower_ascii_idempotent (c : ascii) :
  lower_ascii (lower_ascii c) = lower_ascii c.
Proof.
  destruct c as [[] [] [] [] [] [] [] []]; vm_compute; reflexivity.
Qed.

Lemma toLowerCase_idempotent (s : string) :
  toLowerCase (toLowerCase s) = toLowerCase s.
Proof.
  induction s as [| c s IH]; simpl; [done |].
  by rewrite lower_ascii_idempotent, IH.
Qed.

(** X15. Every account name of the credential map is in lower case:
    lowercasing it again changes nothing. *)
Theorem account_names_are_lowercase (env : Environment) (name : string) :
  is_Some (own (getStripeClients env).1 !! name) →
  toLowerCase name = name.
Proof.
  intros [client Hclient].
  destruct (getStripeClients_from_variable env name client Hclient)
    as (_ & _ & _ & key & _ & _ & <- & _).
  apply toLowerCase_idempotent.
Qed.

Lemma account_names_are_lowercase_witness : toLowerCase "beta" = "beta".
Proof.
  apply (account_names_are_lowercase sample_env "beta").
  vm_compute. eexists. reflexivity.
Defined.

(** ** The prefix and the other variables *)





Lemma env_get_filter_prefixed (env : Environment) (key : string) :
  startsWith key "STRIPE_TOKEN_" = true →
  env_get (List.filter prefixed env) key = env_get env key.
Proof.
  intros Hkey. induction env as [| [k v] rest IH]; [done |].
  simpl. unfold prefixed at 1. simpl.
  destruct (startsWith k "STRIPE_TOKEN_") eqn:Hk; simpl.
  - by rewrite IH.
  - destruct (String.eqb k key) eqn:Hkk; [| done].
    apply String.eqb_eq in Hkk. congruence.
Qed.

Lemma env_callback_filter_prefixed (env : Environment)
    (clients : ClientsObject) (key : string) :
  env_callback (List.filter prefixed env) clients key
  = env_callback env clients key.
Proof.
  unfold env_callback.
  destruct (startsWith key "STRIPE_TOKEN_") eqn:Hkey; [| done].
  by rewrite env_get_filter_prefixed.
Qed.

Lemma fold_env_callback_filter_prefixed (env variables : Environment)
    (clients : ClientsObject) :
  fold_left (env_callback (List.filter prefixed env))
    (map fst (List.filter prefixed variables)) clients
  = fold_left (env_callback env) (map fst variables) clients.
Proof.
  revert clients. induction variables as [| [k v] rest IH]; intros clients;
    [done |].
  simpl. unfold prefixed at 2. simpl.
  destruct (startsWith k "STRIPE_TOKEN_") eqn:Hk; simpl.
  - by rewrite env_callback_filter_prefixed, IH.
  - rewrite IH. f_equal. unfold env_callback. by rewrite Hk.
Qed.

(** X18. Variables whose names do not carry the prefix have no influence:
    the snapshot and the snapshot restricted to the prefixed variables
    give the same credential map and the same accounts. *)
Theorem other_variables_are_ignored (env : Environment) :
  getStripeClients (List.filter prefixed env) = getStripeClients env.
Proof.
  unfold getStripeClients.
  by rewrite (fold_env_callback_filter_prefixed env env empty_object).
Qed.

(** ** How the two tools end *)

Lemma no_credentials_no_accounts (env : Environment) :
  forallb (fun key => negb (startsWith key "STRIPE_TOKEN_"
                            && negb (falsy (env_get env key))))
    env.*1 = true →
  (getStripeClients env).2 = [].
Proof.
  intros Hnone.
  assert (Hempty : own (getStripeClients env).1 = ∅).
  { apply map_empty. intros name.
    destruct (own (getStripeClients env).1 !! name) as [client |] eqn:Hclient;
      [| done].
    destruct (getStripeClients_from_variable env name client Hclient)
      as (_ & _ & Hsecret & key & Hin & Hpre & _ & Hget).
    rewrite forallb_forall in Hnone.
    apply list_elem_of_In in Hin. specialize (Hnone key Hin).
    rewrite Hpre, Hget in Hnone. simpl in Hnone.
    apply negb_true_iff, negb_false_iff, String.eqb_eq in Hnone. done. }
  unfold getStripeClients in *. simpl in *.
  by rewrite Hempty, map_to_list_empty.
Qed.

Lemma client_found_some_account (env : Environment) (answer : option string)
    (client : StripeClient) :
  get_client (getStripeClients env).1 answer = Some client →
  (length (getStripeClients env).2 <? 1)%nat = false.
Proof.
  unfold get_client, getStripeClients. simpl. intros Hclient.
  apply Nat.ltb_ge. rewrite length_fmap, length_map_to_list.
  destruct (decide (size (own (fold_left (env_callback env) (map fst env)
                                 empty_object)) = 0%nat)) as [Hz | Hnz]; [| lia].
  apply map_size_empty_inv in Hz. rewrite Hz in Hclient.
  by rewrite lookup_empty in Hclient.
Qed.


Section MoreExitStatuses.

Variable formatPeriod : option Period → result string.
Variable ledger : StripeClient → result (list RawTransaction).
Variable getProperties : result JsValue.
Variable op_read_parse : string → result string.
Variable getStripeClient : string → StripeClient.
Variable run_action : string → StripeClient → string → Period → JsValue
                      → result unit.

(** X19. When no variable of the snapshot carries the prefix with a
    non-empty value, the reporting script ends with status 1 whatever the
    prompt would have answered. *)
Theorem main_without_credentials_exits_1 (env : Environment)
    (prompted : PromptOutcome) (st : State) :
  forallb (fun key => negb (startsWith key "STRIPE_TOKEN_"
                            && negb (falsy (env_get env key))))
    env.*1 = true →
  exit_status (main formatPeriod ledger env prompted st) = 1.
Proof.
  intros Hnone. pose proof (no_credentials_no_accounts env Hnone) as Hacc.
  unfold main. destruct (getStripeClients env) as [clients accounts].
  simpl in Hacc. by rewrite Hacc.
Qed.

(** X20. Both tools end with status 0 or 1, whatever the environment, the
    prompt, the ledger and the collaborators do. *)
Theorem exit_status_is_0_or_1 (env : Environment)
    (stripeTokens : gmap string string) (prompted : PromptOutcome)
    (st : State) :
  (exit_status (main formatPeriod ledger env prompted st) = 0
   ∨ exit_status (main formatPeriod ledger env prompted st) = 1)
  ∧ (exit_status (tools_main formatPeriod getProperties op_read_parse
                    getStripeClient run_action stripeTokens prompted) = 0
     ∨ exit_status (tools_main formatPeriod getProperties op_read_parse
                      getStripeClient run_action stripeTokens prompted) = 1).
Proof.
  split.
  - unfold main. repeat case_match; simpl; try (by auto);
      destruct (force_closed _); auto.
  - unfold tools_main. repeat case_match; simpl; try (by auto);
      destruct (force_closed _); auto.
Qed.

(** X21. With an account that has a client, a period, a period that
    formats and a ledger that answers, the reporting script ends with
    status 0 when no listed transaction is an available charge with a fee
    tag outside the three buckets, and with status 1 otherwise. *)
Theorem main_exit_status_follows_the_pass (env : Environment)
    (responses : Responses) (st : State) (client : StripeClient)
    (selected : Period) (text : string) (entries : list RawTransaction) :
  get_client (getStripeClients env).1 (account responses) = Some client →
  period responses = Some selected →
  formatPeriod (Some selected) = Ok text →
  ledger client = Ok entries →
  exit_status (main formatPeriod ledger env (PromptResolved responses) st)
  = if forallb (fun transaction => negb (aborts transaction))
         (balanceTransactions_list entries (list_params selected))
    then 0 else 1.
Proof.
  intros Hclient Hperiod Hformat Hledger.
  pose proof (client_found_some_account env _ _ Hclient) as Hacc.
  unfold main. destruct (getStripeClients env) as [clients accounts].
  simpl in Hacc, Hclient. rewrite Hacc, Hperiod, Hformat, Hclient, Hledger.
  destruct (forallb _ (balanceTransactions_list entries (list_params selected)))
    eqn:Hall.
  - destruct (classification_pass_summarises _ st Hall) as (st' & -> & _).
    reflexivity.
  - destruct (for_await_aborts _ (declare_locals st)
                (has_buckets_declare_locals st) Hall) as (e & Hrun & He).
    unfold classification_pass. rewrite Hrun. simpl. by rewrite He.
Qed.

(** X22. When the upstream listing fails, the reporting script ends with
    the status of the handler for that error: 1, unless the message of
    the error starts like the force-close message of the prompt. *)
Theorem main_ledger_failure (env : Environment) (responses : Responses)
    (st : State) (client : StripeClient) (selected : Period) (text : string)
    (e : JsError) :
  get_client (getStripeClients env).1 (account responses) = Some client →
  period responses = Some selected →
  formatPeriod (Some selected) = Ok text →
  ledger client = Throw e →
  exit_status (main formatPeriod ledger env (PromptResolved responses) st)
  = if force_closed e then 0 else 1.
Proof.
  intros Hclient Hperiod Hformat Hledger.
  pose proof (client_found_some_account env _ _ Hclient) as Hacc.
  unfold main. destruct (getStripeClients env) as [clients accounts].
  simpl in Hacc, Hclient. by rewrite Hacc, Hperiod, Hformat, Hclient, Hledger.
Qed.

(** X23. With no token the extended tool ends with status 1 whatever the
    prompt would have answered, once its configuration has loaded. *)
Theorem tools_main_without_tokens_exits_1 (stripeTokens : gmap string string)
    (config : JsValue) (prompted : PromptOutcome) :
  getProperties = Ok config →
  stripeTokens = ∅ →
  exit_status (tools_main formatPeriod getProperties op_read_parse
                 getStripeClient run_action stripeTokens prompted) = 1.
Proof.
  intros Hc ->. unfold tools_main. rewrite Hc. by rewrite map_size_empty.
Qed.



(** X26. A token that is a secret-store reference whose resolution fails
    ends the extended tool with the status of the handler for that error:
    1, unless its message starts like the force-close message. *)
Theorem tools_main_secret_resolution_failure
    (stripeTokens : gmap string string) (config : JsValue)
    (accountName chosen token : string) (selected : Period) (e : JsError) :
  getProperties = Ok config →
  stripeTokens !! accountName = Some token →
  accountName ≠ EmptyString → chosen ≠ EmptyString →
  startsWith token "op://" = true →
  op_read_parse token = Throw e →
  exit_status (tools_main formatPeriod getProperties op_read_parse
                 getStripeClient run_action stripeTokens
                 (PromptResolved {| account := Some accountName;
                                    period := Some selected;
                                    action := Some chosen |}))
  = if force_closed e then 0 else 1.
Proof.
  intros Hc Htoken Ha Hch Hop Hread.
  assert (Hsize : (size stripeTokens <? 1)%nat = false).
  { apply Nat.ltb_ge.
    destruct (decide (size stripeTokens = 0%nat)) as [Hz | Hnz]; [| lia].
    apply map_size_empty_inv in Hz. rewrite Hz in Htoken.
    by rewrite lookup_empty in Htoken. }
  assert (Ht : String.eqb token EmptyString = false).
  { apply String.eqb_neq. intros ->. discriminate. }
  unfold tools_main. rewrite Hc, Hsize. simpl.
  rewrite (eqb_false_of_ne _ _ Ha), (eqb_false_of_ne _ _ Hch), Htoken. simpl.
  by rewrite Ht, Hop, Hread.
Qed.

End MoreExitStatuses.

Lemma main_without_credentials_exits_1_witness :
  exit_status
    (main (fun _ => Ok "November 2023") (fun _ => Ok sample_ledger)
       [("PATH", "/usr/bin"); ("STRIPE_TOKEN_EMPTY", EmptyString)]
       (PromptResolved {| account := Some "empty"; period := None;
                          action := None |})
       blank_state) = 1.
Proof.
  apply (main_without_credentials_exits_1
           (fun _ => Ok "November 2023") (fun _ => Ok sample_ledger)
           [("PATH", "/usr/bin"); ("STRIPE_TOKEN_EMPTY", EmptyString)]
           (PromptResolved {| account := Some "empty"; period := None;
                              action := None |})
           blank_state).
  reflexivity.
Defined.

Lemma main_exit_status_follows_the_pass_witness :
  exit_status
    (main (fun _ => Ok "November 2023") (fun _ => Ok sample_ledger) sample_env
       (PromptResolved
          {| account := Some "acme";
             period := Some {| period_start := NewDate 1698793200000;
                               period_end := NewDate 1701385200000 |};
             action := None |})
       blank_state)
  = if forallb (fun transaction => negb (aborts transaction))
         (balanceTransactions_list sample_ledger
            (list_params {| period_start := NewDate 1698793200000;
                            period_end := NewDate 1701385200000 |}))
    then 0 else 1.
Proof.
  apply (main_exit_status_follows_the_pass
           (fun _ => Ok "November 2023") (fun _ => Ok sample_ledger) sample_env
           {| account := Some "acme";
              period := Some {| period_start := NewDate 1698793200000;
                                period_end := NewDate 1701385200000 |};
              action := None |}
           blank_state (NewStripe "sk_live_1" "2023-08-16")
           {| period_start := NewDate 1698793200000;
              period_end := NewDate 1701385200000 |}
           "November 2023" sample_ledger).
  - vm_compute. reflexivity.
  - reflexivity.
  - reflexivity.
  - reflexivity.
Defined.

Lemma main_ledger_failure_witness :
  exit_status
    (main (fun _ => Ok "November 2023")
       (fun _ => Throw (Error "connect ECONNREFUSED")) sample_env
       (PromptResolved
          {| account := Some "acme";
             period := Some {| period_start := NewDate 1698793200000;
                               period_end := NewDate 1701385200000 |};
             action := None |})
       blank_state)
  = if force_closed (Error "connect ECONNREFUSED") then 0 else 1.
Proof.
  apply (main_ledger_failure
           (fun _ => Ok "November 2023")
           (fun _ => Throw (Error "connect ECONNREFUSED")) sample_env
           {| account := Some "acme";
              period := Some {| period_start := NewDate 1698793200000;
                                period_end := NewDate 1701385200000 |};
              action := None |}
           blank_state (NewStripe "sk_live_1" "2023-08-16")
           {| period_start := NewDate 1698793200000;
              period_end := NewDate 1701385200000 |}
           "November 2023" (Error "connect ECONNREFUSED")).
  - vm_compute. reflexivity.
  - reflexivity.
  - reflexivity.
  - reflexivity.
Defined.

Lemma tools_main_without_tokens_exits_1_witness :
  exit_status
    (tools_main (fun _ => Ok "November 2023") (Ok JsNull) (fun s => Ok s)
       (fun secret => NewStripe secret "2023-08-16")
       (fun _ _ _ _ _ => Ok tt) ∅
       (PromptResolved {| account := None; period := None; action := None |}))
  = 1.
Proof.
  apply (tools_main_without_tokens_exits_1
           (fun _ => Ok "November 2023") (Ok JsNull) (fun s => Ok s)
           (fun secret => NewStripe secret "2023-08-16")
           (fun _ _ _ _ _ => Ok tt) ∅ JsNull
           (PromptResolved {| account := None; period := None;
                              action := None |})).
  - reflexivity.
  - reflexivity.
Defined.



Lemma tools_main_secret_resolution_failure_witness :
  exit_status
    (tools_main (fun _ => Ok "November 2023") (Ok JsNull)
       (fun _ => Throw (Error "could not read secret"))
       (fun secret => NewStripe secret "2023-08-16")
       (fun _ _ _ _ _ => Ok tt) {["acme" := "op://vault/stripe/key"]}
       (PromptResolved
          {| account := Some "acme";
             period := Some {| period_start := NewDate 1698793200000;
                               period_end := NewDate 1701385200000 |};
             action := Some "downloadInvoices" |}))
  = if force_closed (Error "could not read secret") then 0 else 1.
Proof.
  apply (tools_main_secret_resolution_failure
           (fun _ => Ok "November 2023") (Ok JsNull)
           (fun _ => Throw (Error "could not read secret"))
           (fun secret => NewStripe secret "2023-08-16")
           (fun _ _ _ _ _ => Ok tt) {["acme" := "op://vault/stripe/key"]}
           JsNull "acme" "downloadInvoices" "op://vault/stripe/key"
           {| period_start := NewDate 1698793200000;
              period_end := NewDate 1701385200000 |}
           (Error "could not read secret")).
  - reflexivity.
  - vm_compute. reflexivity.
  - discriminate.
  - discriminate.
  - reflexivity.
  - reflexivity.
Defined.

(** ** Line items and their charges *)

Lemma bucket_of_completed_pass (listed : list RawTransaction) (st st' : State)
    (key : string) (items : list FeeLineItem) :
  summarises listed (declare_locals st) st' →
  taxesAndFees st' !! key = Some items →
  items = flat_map (line_items key) (List.filter (of_type "charge") listed).
Proof.
  intros (_ & _ & _ & _ & Hb & _) Hitems.
  rewrite Hb in Hitems. simpl in Hitems.
  rewrite fresh_taxesAndFees_lookup in Hitems.
  destruct (includes bucket_names key); simpl in Hitems; [| done].
  by injection Hitems as <-.
Qed.

(** X27. After a completed pass every line item of every bucket belongs
    to a charge record of the run: some record has the item's transaction
    id, charge id and dates. *)
Theorem line_items_belong_to_charges
    (listed : list RawTransaction) (st : State) :
  forallb (fun transaction => negb (aborts transaction)) listed = true →
  ∃ st',
    classification_pass listed st = Ok st'
    ∧ ∀ key items item,
        taxesAndFees st' !! key = Some items →
        In item items →
        ∃ charge,
          In charge (charges st')
          ∧ charge_transaction_id charge = item_transaction_id item
          ∧ charge_id charge = item_charge_id item
          ∧ charge_created charge = item_created item
          ∧ charge_available_on charge = item_available_on item.
Proof.
  intros Hall.
  destruct (classification_pass_summarises listed st Hall)
    as (st' & Hrun & _ & Hsum).
  exists st'. split; [done |]. intros key items item Hitems Hin.
  rewrite (bucket_of_completed_pass _ _ _ _ _ Hsum Hitems) in Hin.
  apply in_flat_map in Hin as (t & Ht & Hin).
  unfold line_items in Hin. apply in_map_iff in Hin as (fee & <- & _).
  destruct Hsum as (_ & _ & Hc & _). simpl in Hc.
  exists (charge_record t). split; [| done].
  rewrite Hc. by apply in_map.
Qed.

Lemma line_items_belong_to_charges_witness :
  ∃ st',
    classification_pass sample_ledger blank_state = Ok st'
    ∧ ∀ key items item,
        taxesAndFees st' !! key = Some items →
        In item items →
        ∃ charge,
          In charge (charges st')
          ∧ charge_transaction_id charge = item_transaction_id item
          ∧ charge_id charge = item_charge_id item
          ∧ charge_created charge = item_created item
          ∧ charge_available_on charge = item_available_on item.
Proof.
  apply (line_items_belong_to_charges sample_ledger blank_state).
  reflexivity.
Defined.

Lemma tagged_lengths (fee_details : list FeeDetail) :
  tags_bucketed fee_details = true →
  (length (tagged "stripe_fee" fee_details)
   + length (tagged "application_fee" fee_details)
   + length (tagged "tax" fee_details))%nat
  = length fee_details.
Proof.
  unfold tagged, tags_bucketed.
  induction fee_details as [| fee rest IH]; [done |].
  simpl. intros [Hfee Hrest]%andb_true_iff.
  apply includes_true in Hfee. unfold bucket_names in Hfee.
  rewrite !elem_of_cons, elem_of_nil in Hfee.
  specialize (IH Hrest).
  destruct Hfee as [-> | [-> | [-> | []]]]; simpl; lia.
Qed.

Lemma bucket_lengths (charged : list RawTransaction) :
  (∀ t, In t charged → tags_bucketed (tx_fee_details t) = true) →
  Z.of_nat (length (flat_map (line_items "stripe_fee") charged))
  + Z.of_nat (length (flat_map (line_items "application_fee") charged))
  + Z.of_nat (length (flat_map (line_items "tax") charged))
  = sum_of (fun t => Z.of_nat (length (tx_fee_details t))) charged.
Proof.
  induction charged as [| t charged IH]; intros Htags; [done |].
  simpl. rewrite !length_app. unfold line_items at 1 3 5.
  rewrite !length_map.
  pose proof (tagged_lengths _ (Htags t (or_introl eq_refl))) as Hlen.
  assert (IH' := IH (fun t' Hin => Htags t' (or_intror Hin))).
  lia.
Qed.

(** X28. After a completed pass the three buckets together hold as many
    line items as the available charges of the input have fee details:
    none is dropped and none is entered twice. *)
Theorem buckets_hold_every_fee_detail_once
    (listed : list RawTransaction) (st : State) :
  forallb (fun transaction => negb (aborts transaction)) listed = true →
  ∃ st' stripe application tax,
    classification_pass listed st = Ok st'
    ∧ taxesAndFees st' !! "stripe_fee" = Some stripe
    ∧ taxesAndFees st' !! "application_fee" = Some application
    ∧ taxesAndFees st' !! "tax" = Some tax
    ∧ Z.of_nat (length stripe) + Z.of_nat (length application)
      + Z.of_nat (length tax)
      = sum_of (fun t => Z.of_nat (length (tx_fee_details t)))
          (List.filter (of_type "charge") listed).
Proof.
  intros Hall.
  destruct (classification_pass_summarises listed st Hall)
    as (st' & Hrun & _ & _ & _ & _ & _ & Hb & _).
  exists st'. do 3 eexists. split; [done |].
  rewrite !Hb. simpl. rewrite !fresh_taxesAndFees_lookup. simpl.
  do 3 (split; [reflexivity |]).
  apply bucket_lengths. intros t Ht.
  exact (charged_tags_bucketed listed t Hall Ht).
Qed.

Lemma buckets_hold_every_fee_detail_once_witness :
  ∃ st' stripe application tax,
    classification_pass sample_ledger blank_state = Ok st'
    ∧ taxesAndFees st' !! "stripe_fee" = Some stripe
    ∧ taxesAndFees st' !! "application_fee" = Some application
    ∧ taxesAndFees st' !! "tax" = Some tax
    ∧ Z.of_nat (length stripe) + Z.of_nat (length application)
      + Z.of_nat (length tax)
      = sum_of (fun t => Z.of_nat (length (tx_fee_details t)))
          (List.filter (of_type "charge") sample_ledger).
Proof.
  apply (buckets_hold_every_fee_detail_once sample_ledger blank_state).
  reflexivity.
Defined.
